(** * pr-summary-generator: the classification and aggregation pipeline

    A shallow embedding of [bin/pr-summary.js]: the type classifier
    ([detectPRType]), the file categorizer ([categorizeFiles]), the
    complexity/risk analyzer ([analyzeComplexity]), the suggestion engine
    ([generateSuggestions]) and the two per-category renderers
    ([generateChangesSection], [generateFileList]).

    Modelling conventions.
    - A JavaScript string is the [string] of its UTF-8 bytes; the
      keywords, the separators and the category rules of the program are
      all ASCII, so searching them byte-wise finds the same occurrences.
      [toLowerCase] is modelled on the ASCII letters.
    - A number is an exact integer ([Z]).  The program computes with
      doubles, which hold every integer of magnitude below 2^53 exactly:
      the analyzer's model carries a flag, [exact], that is true as long
      as every count field is one the model reads as the program does
      and every running total stays below 2^53; then the numbers of the
      model are the numbers of the program.  On lines with two
      non-negative integer counts the tiers agree with the program also
      beyond: rounding to the nearest double is monotone and the
      thresholds are far below 2^53, so each comparison of the analyzer
      has the same outcome on the doubles as on the exact sums.
    - What the program gets from outside (the texts git prints, whether
      the directory is a repository, the outcome of writing the output
      file) is an input of the model.
    - An exception is an [Err] result. *)

From Stdlib Require Import ZArith List Bool Lia Ascii String.
From Stdlib Require Import DecimalString DecimalNat DecimalN DecimalPos.
From Stdlib Require Import Permutation.
Import ListNotations.

Local Open Scope string_scope.
Local Open Scope list_scope.

(** ** JavaScript string primitives *)

Module Js.

Definition tab : ascii := "009".
Definition newline : ascii := "010".

(** [s.includes(needle)] *)
Fixpoint includes (needle hay : string) : bool :=
  String.prefix needle hay ||
  match hay with
  | EmptyString => false
  | String _ rest => includes needle rest
  end.

(** [s.endsWith(suffix)] *)
Fixpoint endsWith (suffix s : string) : bool :=
  String.eqb suffix s ||
  match s with
  | EmptyString => false
  | String _ rest => endsWith suffix rest
  end.

Definition isUpper (c : ascii) : bool :=
  (65 <=? nat_of_ascii c)%nat && (nat_of_ascii c <=? 90)%nat.

Definition lowerChar (c : ascii) : ascii :=
  if isUpper c then ascii_of_nat (nat_of_ascii c + 32) else c.

Definition upperChar (c : ascii) : ascii :=
  if ((97 <=? nat_of_ascii c)%nat && (nat_of_ascii c <=? 122)%nat)%bool
  then ascii_of_nat (nat_of_ascii c - 32) else c.

(** [s.toLowerCase()] *)
Fixpoint toLowerCase (s : string) : string :=
  match s with
  | EmptyString => EmptyString
  | String c rest => String (lowerChar c) (toLowerCase rest)
  end.

(** [arr.join(sep)] *)
Definition join (sep : string) (arr : list string) : string :=
  String.concat sep arr.

(** [s.split(c)] for a one-character separator: never empty, the pieces
    between consecutive separators. *)
Fixpoint split (c : ascii) (s : string) : list string :=
  match s with
  | EmptyString => [EmptyString]
  | String x rest =>
      if Ascii.eqb x c then EmptyString :: split c rest
      else match split c rest with
           | [] => [String x EmptyString]
           | piece :: pieces => String x piece :: pieces
           end
  end.

(** [Boolean(s)] for a string: the empty string is falsy. *)
Definition truthy (s : string) : bool :=
  match s with EmptyString => false | _ => true end.

(** The ASCII members of WhiteSpace and LineTerminator. *)
Definition isWhite (c : ascii) : bool :=
  let n := nat_of_ascii c in
  ((9 <=? n)%nat && (n <=? 13)%nat) || (n =? 32)%nat.

Fixpoint trimStart (s : string) : string :=
  match s with
  | EmptyString => EmptyString
  | String c rest => if isWhite c then trimStart rest else s
  end.

Fixpoint trimEnd (s : string) : string :=
  match s with
  | EmptyString => EmptyString
  | String c rest =>
      match trimEnd rest with
      | EmptyString => if isWhite c then EmptyString else String c EmptyString
      | kept => String c kept
      end
  end.

Definition trim (s : string) : string := trimEnd (trimStart s).

(** What a variable bound by [[added, removed] = line.split('\t').map(Number)]
    can hold: a number, [NaN], or [undefined] for a missing element.
    [Unmodelled] stands for the result of [Number] on a text that the
    model does not read: it may be a number (a fraction, an exponent
    form, a radix prefix, [Infinity]) or [NaN]. *)
Inductive num : Type :=
| Undefined
| NaN
| Num (z : Z)
| Unmodelled.

Fixpoint anyChar (p : ascii -> bool) (s : string) : bool :=
  match s with
  | EmptyString => false
  | String c rest => p c || anyChar p rest
  end.

Definition isDigitChar (c : ascii) : bool :=
  (48 <=? nat_of_ascii c)%nat && (nat_of_ascii c <=? 57)%nat.

(** A printable ASCII character other than the space. *)
Definition isVisible (c : ascii) : bool :=
  (33 <=? nat_of_ascii c)%nat && (nat_of_ascii c <=? 126)%nat.

Definition digits (s : string) : num :=
  match NilEmpty.uint_of_string s with
  | Some d => Num (Z.of_N (N.of_uint d))
  | None => NaN
  end.

(** A text that is no run of digits.  Every StringNumericLiteral holds a
    decimal digit or the word [Infinity], so a text with neither, and
    with a visible ASCII character (which no trimming removes), is not
    numeric: [NaN].  The other texts are not read. *)
Definition notDigits (t : string) : num :=
  if anyChar isDigitChar t || includes "Infinity" t
     || negb (anyChar isVisible t)
  then Unmodelled else NaN.

(** [Number(s)]: surrounding ASCII white space is dropped, the empty
    string is 0, an optionally signed run of decimal digits is its
    value (the double the program gets is this value when its magnitude
    is below 2^53), a text that cannot be numeric is [NaN], and any other
    text is [Unmodelled]. *)
Definition Number (s : string) : num :=
  match trim s with
  | EmptyString => Num 0
  | String "-" (String c r) =>
      match digits (String c r) with
      | Num z => Num (- z)
      | _ => notDigits (trim s)
      end
  | String "+" (String c r) =>
      match digits (String c r) with
      | Num z => Num z
      | _ => notDigits (trim s)
      end
  | t => match digits t with Num z => Num z | _ => notDigits t end
  end.

(** [v || 0] where the result is added to a number. *)
Definition orZero (v : num) : Z :=
  match v with
  | Num z => z
  | NaN | Undefined | Unmodelled => 0
  end.

(** [a + b] on numbers and [undefined]. *)
Definition add (a b : num) : num :=
  match a, b with
  | Num x, Num y => Num (x + y)
  | Unmodelled, _ | _, Unmodelled => Unmodelled
  | _, _ => NaN
  end.

(** [v > n]: a comparison with [NaN] is false. *)
Definition gt (v : num) (n : Z) : bool :=
  match v with
  | Num z => (n <? z)%Z
  | NaN | Undefined | Unmodelled => false
  end.

(** The integers a double holds exactly, whatever their neighbours. *)
Definition inRange (z : Z) : bool := (Z.abs z <? 9007199254740992)%Z.

(** The model holds the value the program has. *)
Definition modelled (v : num) : bool :=
  match v with
  | Num z => inRange z
  | NaN | Undefined => true
  | Unmodelled => false
  end.

(** [String(n)] for a non-negative integer. *)
Definition ofNat (n : nat) : string :=
  NilZero.string_of_uint (Nat.to_uint n).

End Js.

(** ** Complexity / risk analyzer *)

Inductive Tier : Type := Low | Medium | High.

Definition tierRank (t : Tier) : nat :=
  match t with Low => 0 | Medium => 1 | High => 2 end.

(** The order Low < Medium < High. *)
Definition tierLe (a b : Tier) : Prop := tierRank a <= tierRank b.

(** The object [analyzeComplexity] returns.  [exact] is no property of
    that object: it tells that the four values before it are those of
    the program (see [countFields]); [fileCount] always is. *)
Record Analysis : Type := mkAnalysis {
  complexity : Tier;
  risk : Tier;
  totalAdded : Z;
  totalRemoved : Z;
  fileCount : nat;
  exact : bool
}.

(** The three counters that the [forEach] of [analyzeComplexity] mutates,
    and whether they are the program's so far. *)
Record Counters : Type := mkCounters {
  cAdded : Z;
  cRemoved : Z;
  cLarge : Z;
  cExact : bool
}.

Definition counters0 : Counters := mkCounters 0 0 0 true.

(** [const [added, removed] = line.split('\t').map(Number)] *)
Definition numstatFields (line : string) : Js.num * Js.num :=
  match map Js.Number (Js.split Js.tab line) with
  | added :: removed :: _ => (added, removed)
  | [added] => (added, Js.Undefined)
  | [] => (Js.Undefined, Js.Undefined)
  end.

(** The body of the [forEach], on the destructured pair.  The sums are
    exact; the program adds doubles, and gets the same totals when both
    fields are modelled and both new totals are in range.  The comparison
    with 200 and the comparisons of [report] then agree too: rounding a
    sum of two integers in range keeps its order with an integer in
    range, and doubling is exact. *)
Definition countFields (c : Counters) (f : Js.num * Js.num) : Counters :=
  let (added, removed) := f in
  mkCounters
    (cAdded c + Js.orZero added)
    (cRemoved c + Js.orZero removed)
    (if Js.gt (Js.add added removed) 200 then cLarge c + 1 else cLarge c)
    (cExact c && Js.modelled added && Js.modelled removed
     && Js.inRange (cAdded c + Js.orZero added)
     && Js.inRange (cRemoved c + Js.orZero removed)).

Definition countLine (c : Counters) (line : string) : Counters :=
  countFields c (numstatFields line).

Definition complexityOf (totalChanges largeFiles : Z) : Tier :=
  if ((1000 <? totalChanges) || (3 <? largeFiles))%Z then High
  else if ((300 <? totalChanges) || (1 <? largeFiles))%Z then Medium
  else Low.

Definition riskOf (added removed totalChanges largeFiles : Z) : Tier :=
  let risk := Low in
  let risk :=
    if ((2 <? largeFiles) || (added * 2 <? removed))%Z then Medium else risk in
  let risk :=
    if ((5 <? largeFiles) || (2000 <? totalChanges))%Z then High else risk in
  risk.

Definition report (c : Counters) (n : nat) : Analysis :=
  let totalChanges := (cAdded c + cRemoved c)%Z in
  mkAnalysis
    (complexityOf totalChanges (cLarge c))
    (riskOf (cAdded c) (cRemoved c) totalChanges (cLarge c))
    (cAdded c) (cRemoved c) n (cExact c).

(** [analyzeComplexity], on the text that [git diff --numstat] printed. *)
Definition analyzeComplexity (stats : string) : Analysis :=
  let lines := filter Js.truthy (Js.split Js.newline stats) in
  report (fold_left countLine lines counters0) (List.length lines).

(** A numstat line of a text file: the two counts and the path. *)
Definition numstatLine (e : N * N * string) : string :=
  let '(added, removed, path) := e in
  NilZero.string_of_uint (N.to_uint added) ++ String Js.tab
    (NilZero.string_of_uint (N.to_uint removed) ++ String Js.tab path).

(** ** Regular expressions

    The fragment the program's literals use: literal characters, the
    anchors [^] and [$] (no flag is set, so they anchor the whole input),
    sequence and alternation. *)

Module Regex.

Inductive regex : Type :=
| Lit (s : string)
| Bol
| Eol
| Seq (a b : regex)
| Alt (a b : regex).

Fixpoint stripPrefix (p s : string) : option string :=
  match p, s with
  | EmptyString, _ => Some s
  | String a p', String b s' =>
      if Ascii.eqb a b then stripPrefix p' s' else None
  | String _ _, EmptyString => None
  end.

Definition isEmpty (s : string) : bool :=
  match s with EmptyString => true | _ => false end.

(** Backtracking match of [r] at the current position; [bol] tells
    whether the position is the start of the input, [k] is the rest of
    the pattern. *)
Fixpoint matchAt (r : regex) (bol : bool) (s : string)
         (k : bool -> string -> bool) : bool :=
  match r with
  | Lit p =>
      match stripPrefix p s with
      | Some rest => k (bol && isEmpty p) rest
      | None => false
      end
  | Bol => bol && k bol s
  | Eol => match s with EmptyString => k bol s | String _ _ => false end
  | Seq a b => matchAt a bol s (fun bol' s' => matchAt b bol' s' k)
  | Alt a b => matchAt a bol s k || matchAt b bol s k
  end.

Fixpoint search (r : regex) (bol : bool) (s : string) : bool :=
  matchAt r bol s (fun _ _ => true) ||
  match s with
  | EmptyString => false
  | String _ rest => search r false rest
  end.

(** [r.test(s)], and whether [s.match(r)] is not [null]. *)
Definition test (r : regex) (s : string) : bool := search r true s.

Definition alts (words : list string) : regex :=
  match words with
  | [] => Lit ""
  | w :: ws => fold_left (fun r x => Alt r (Lit x)) ws (Lit w)
  end.

End Regex.

Import Regex.

(** ** Values, errors and the configuration *)

(** What [JSON.parse] can return, and the RegExp objects of
    [defaultConfig].  The fields of an object have distinct keys. *)
#[local] Unset Elimination Schemes.
Inductive value : Type :=
| JNull
| JBool (b : bool)
| JNumber (z : Z)
| JString (s : string)
| JArray (xs : list value)
| JObject (fields : list (string * value))
| JRegExp (r : regex).
#[local] Set Elimination Schemes.

(** A thrown [TypeError], a thrown system error ([ENOENT], ...), or the
    end of the process by [process.exit(code)]. *)
Inductive error : Type :=
| TypeError (msg : string)
| SystemError (code : string)
| Exit (code : Z).

Inductive result (A : Type) : Type :=
| Ok (a : A)
| Err (e : error).

Arguments Ok {A} a.
Arguments Err {A} e.

Definition bind {A B : Type} (m : result A) (f : A -> result B) : result B :=
  match m with
  | Ok a => f a
  | Err e => Err e
  end.

Notation "x <- m ;; k" := (bind m (fun x => k))
  (at level 61, m at next level, right associativity).

(** [arr.forEach] with a callback that may throw, threading the state
    that the callback mutates. *)
Fixpoint forEachM {A S : Type} (f : S -> A -> result S) (xs : list A) (s : S)
  : result S :=
  match xs with
  | [] => Ok s
  | x :: rest => s' <- f s x ;; forEachM f rest s'
  end.

(** [arr.filter] with a predicate that may throw. *)
Fixpoint filterM {A : Type} (p : A -> result bool) (xs : list A)
  : result (list A) :=
  match xs with
  | [] => Ok []
  | x :: rest =>
      keep <- p x ;;
      kept <- filterM p rest ;;
      Ok (if keep then x :: kept else kept)
  end.

Record Config : Type := mkConfig {
  baseBranch : value;
  outputFile : value;
  excludePatterns : value
}.

Definition defaultExcludePatterns : list regex :=
  [ Seq Bol (Lit ".windsurf/");
    Seq Bol (Lit ".cursor/");
    Seq Bol (Lit ".vscode/");
    Seq Bol (Lit ".idea/");
    Seq Bol (Lit "node_modules/");
    Seq Bol (Lit ".next/");
    Seq Bol (Lit "dist/");
    Seq Bol (Lit "build/");
    Seq Bol (Lit "coverage/");
    Seq (Lit ".log") Eol;
    Seq Bol (Lit ".env");
    Seq Bol (Seq (Lit ".gitignore") Eol);
    Seq Bol (Seq (Lit "package-lock.json") Eol);
    Seq Bol (Seq (Lit "yarn.lock") Eol) ].

Definition defaultConfig : Config :=
  mkConfig (JString "main") (JString "PR_SUMMARY.md")
           (JArray (map JRegExp defaultExcludePatterns)).

Fixpoint lookup (key : string) (fields : list (string * value))
  : option value :=
  match fields with
  | [] => None
  | (k, v) :: rest => if String.eqb k key then Some v else lookup key rest
  end.

Definition override (key : string) (user : value) (dflt : value) : value :=
  match user with
  | JObject fields =>
      match lookup key fields with Some v => v | None => dflt end
  | _ => dflt
  end.

(** [{ ...defaultConfig, ...userConfig }], read at the three keys the
    program uses. *)
Definition mergeConfig (userConfig : value) : Config :=
  mkConfig
    (override "baseBranch" userConfig (baseBranch defaultConfig))
    (override "outputFile" userConfig (outputFile defaultConfig))
    (override "excludePatterns" userConfig (excludePatterns defaultConfig)).

(** [loadConfig]: the candidate files that exist, in order, each with
    what [JSON.parse] made of it ([None] when reading or parsing threw).
    The first that parses is merged over the defaults. *)
Fixpoint loadConfig (existing : list (option value)) : Config :=
  match existing with
  | [] => defaultConfig
  | Some userConfig :: _ => mergeConfig userConfig
  | None :: rest => loadConfig rest
  end.

(** [pattern.test(file)]: only a RegExp has a [test] method. *)
Definition callTest (pattern : value) (file : string) : result bool :=
  match pattern with
  | JRegExp r => Ok (test r file)
  | JNull => Err (TypeError "Cannot read properties of null (reading 'test')")
  | _ => Err (TypeError "pattern.test is not a function")
  end.

(** [patterns.some((pattern) => pattern.test(file))] on an array. *)
Fixpoint someTest (patterns : list value) (file : string) : result bool :=
  match patterns with
  | [] => Ok false
  | pattern :: rest =>
      hit <- callTest pattern file ;;
      if hit then Ok true else someTest rest file
  end.

(** [config.excludePatterns.some((pattern) => pattern.test(file))] *)
Definition isExcluded (config : Config) (file : string) : result bool :=
  match excludePatterns config with
  | JArray patterns => someTest patterns file
  | JNull => Err (TypeError "Cannot read properties of null (reading 'some')")
  | _ => Err (TypeError "config.excludePatterns.some is not a function")
  end.

(** ** File categorizer *)

Inductive Category : Type :=
| Components | Hooks | Utils | Types | Styles
| Tests | Docs | ConfigFiles | Scripts | Other.

(** The [categories] object; the fields are in the order its literal
    creates the keys. *)
Record FileCategories : Type := mkCategories {
  components : list string;
  hooks : list string;
  utils : list string;
  types : list string;
  styles : list string;
  tests : list string;
  docs : list string;
  config : list string;
  scripts : list string;
  other : list string
}.

Definition emptyCategories : FileCategories :=
  mkCategories [] [] [] [] [] [] [] [] [] [].

Definition bucket (c : Category) (cs : FileCategories) : list string :=
  match c with
  | Components => components cs
  | Hooks => hooks cs
  | Utils => utils cs
  | Types => types cs
  | Styles => styles cs
  | Tests => tests cs
  | Docs => docs cs
  | ConfigFiles => config cs
  | Scripts => scripts cs
  | Other => other cs
  end.

(** [categories.<c>.push(file)] *)
Definition push (c : Category) (file : string) (cs : FileCategories)
  : FileCategories :=
  let (co, ho, ut, ty, st, te, dc, cf, sc, ot) := cs in
  match c with
  | Components => mkCategories (co ++ [file]) ho ut ty st te dc cf sc ot
  | Hooks => mkCategories co (ho ++ [file]) ut ty st te dc cf sc ot
  | Utils => mkCategories co ho (ut ++ [file]) ty st te dc cf sc ot
  | Types => mkCategories co ho ut (ty ++ [file]) st te dc cf sc ot
  | Styles => mkCategories co ho ut ty (st ++ [file]) te dc cf sc ot
  | Tests => mkCategories co ho ut ty st (te ++ [file]) dc cf sc ot
  | Docs => mkCategories co ho ut ty st te (dc ++ [file]) cf sc ot
  | ConfigFiles => mkCategories co ho ut ty st te dc (cf ++ [file]) sc ot
  | Scripts => mkCategories co ho ut ty st te dc cf (sc ++ [file]) ot
  | Other => mkCategories co ho ut ty st te dc cf sc (ot ++ [file])
  end.

Definition stylesRe : regex :=
  Seq (Lit ".") (Seq (alts ["scss"; "css"; "less"; "sass"]) Eol).

Definition testsRe : regex :=
  Seq (Lit ".")
      (Seq (alts ["test"; "spec"])
           (Seq (Lit ".") (Seq (alts ["ts"; "tsx"; "js"; "jsx"]) Eol))).

Definition configRe : regex :=
  Seq (Lit ".")
      (Seq (Alt (alts ["json"; "yml"; "yaml"])
                (Seq (Lit "config.") (alts ["ts"; "js"])))
           Eol).

(** The [if] / [else if] chain of [categorizeFiles]. *)
Definition categoryOf (file : string) : Category :=
  if Js.includes "components/" file || Js.includes "src/components/" file
  then Components
  else if Js.includes "hooks/" file || Js.includes "src/hooks/" file
  then Hooks
  else if Js.includes "utils/" file || Js.includes "src/utils/" file
  then Utils
  else if Js.includes "types/" file || Js.includes "src/types/" file
  then Types
  else if test stylesRe file then Styles
  else if test testsRe file then Tests
  else if Js.includes "scripts/" file || Js.includes "src/scripts/" file
  then Scripts
  else if Js.endsWith ".md" file && negb (Js.includes "node_modules" file)
  then Docs
  else if test configRe file then ConfigFiles
  else Other.

(** The callback of [files.forEach] in [categorizeFiles]. *)
Definition categorizeFile (cfg : Config) (cs : FileCategories) (file : string)
  : result FileCategories :=
  skip <- isExcluded cfg file ;;
  if skip then Ok cs else Ok (push (categoryOf file) file cs).

Definition categorizeFiles (cfg : Config) (files : list string)
  : result FileCategories :=
  forEachM (categorizeFile cfg) files emptyCategories.

(** ** Type classifier *)

Inductive PRLabel : Type :=
| Fix | Feature | Refactor | DocsType | Test | Performance | Chore.

Definition labelName (l : PRLabel) : string :=
  match l with
  | Fix => "Fix"
  | Feature => "Feature"
  | Refactor => "Refactor"
  | DocsType => "Docs"
  | Test => "Test"
  | Performance => "Performance"
  | Chore => "Chore"
  end.

(** The object [{ type, emoji }] that [detectPRType] returns. *)
Record PRType : Type := mkPRType {
  type : PRLabel;
  emoji : string
}.

Definition detectPRType (commits files : list string) : PRType :=
  let commitText := Js.toLowerCase (Js.join " " commits) in
  let fileText := Js.toLowerCase (Js.join " " files) in
  if Js.includes "fix" commitText || Js.includes "bug" commitText
     || Js.includes "resolve" commitText
  then mkPRType Fix "🐛"
  else if Js.includes "feat" commitText || Js.includes "feature" commitText
          || Js.includes "add" commitText
  then mkPRType Feature "✨"
  else if Js.includes "refactor" commitText
          || Js.includes "restructure" commitText
  then mkPRType Refactor "♻️"
  else if Js.includes "docs" commitText
          || Js.includes "documentation" commitText
          || Js.includes ".md" fileText
  then mkPRType DocsType "📝"
  else if Js.includes "test" commitText || Js.includes "test" fileText
          || Js.includes "spec" fileText
  then mkPRType Test "🧪"
  else if Js.includes "perf" commitText
          || Js.includes "performance" commitText
          || Js.includes "optimize" commitText
  then mkPRType Performance "⚡"
  else mkPRType Chore "🔧".

(** ** Suggestion engine *)

Definition nonEmpty {A : Type} (xs : list A) : bool :=
  (0 <? List.length xs)%nat.

Definition label_eqb (a b : PRLabel) : bool :=
  String.eqb (labelName a) (labelName b).

Definition msgScreenshots : string :=
  "📸 Consider adding screenshots for UI changes".
Definition msgAccessibility : string :=
  "♿ Verify accessibility with screen reader".
Definition msgHooks : string := "🧪 Add unit tests for custom hooks".
Definition msgUtils : string :=
  "📊 Aim for 100% test coverage on utility functions".
Definition msgNoTests : string :=
  "⚠️  No test files modified - consider adding tests".
Definition msgTypes : string := "📝 Update JSDoc comments for type changes".
Definition msgResponsive : string :=
  "🎨 Test responsive design on mobile devices".
Definition msgDarkMode : string :=
  "🌓 Verify dark mode compatibility (if applicable)".

(** [generateSuggestions]: [suggestions] is the array the [push] calls
    extend. *)
Definition generateSuggestions (categories : FileCategories) (prType : PRType)
  : list string :=
  let suggestions := [] in
  let suggestions :=
    if nonEmpty (components categories)
    then (suggestions ++ [msgScreenshots]) ++ [msgAccessibility]
    else suggestions in
  let suggestions :=
    if nonEmpty (hooks categories)
    then suggestions ++ [msgHooks] else suggestions in
  let suggestions :=
    if nonEmpty (utils categories)
    then suggestions ++ [msgUtils] else suggestions in
  let suggestions :=
    if (List.length (tests categories) =? 0)%nat
       && negb (label_eqb (type prType) DocsType)
    then suggestions ++ [msgNoTests] else suggestions in
  let suggestions :=
    if nonEmpty (types categories)
    then suggestions ++ [msgTypes] else suggestions in
  let suggestions :=
    if nonEmpty (styles categories)
    then (suggestions ++ [msgResponsive]) ++ [msgDarkMode]
    else suggestions in
  suggestions.

(** ** Renderers of the per-category sections *)

Local Close Scope list_scope.

Definition nl : string := String Js.newline EmptyString.

(** [Object.entries(categories)]: the keys in creation order. *)
Definition entries (categories : FileCategories)
  : list (string * list string) :=
  [ ("components", components categories);
    ("hooks", hooks categories);
    ("utils", utils categories);
    ("types", types categories);
    ("styles", styles categories);
    ("tests", tests categories);
    ("docs", docs categories);
    ("config", config categories);
    ("scripts", scripts categories);
    ("other", other categories) ]%list.

Definition categoryLabels : list (string * string) :=
  [ ("components", "Components");
    ("hooks", "Hooks");
    ("utils", "Utilities");
    ("types", "Types");
    ("styles", "Styles");
    ("tests", "Tests");
    ("scripts", "Scripts");
    ("docs", "Documentation");
    ("config", "Configuration");
    ("other", "Other Files") ]%list.

(** [categoryLabels[key]] inside a template literal. *)
Fixpoint labelOf (key : string) (labels : list (string * string)) : string :=
  match labels with
  | nil => "undefined"
  | cons (k, l) rest => if String.eqb k key then l else labelOf key rest
  end.

(** [files.slice(0, n)] *)
Definition slice0 (n : nat) (files : list string) : list string :=
  firstn n files.

Definition changesFile (section file : string) : string :=
  let section := section ++ ("**`" ++ file ++ "`**" ++ nl ++ nl) in
  let section :=
    section ++ ("<!-- TODO: Describe changes in this file -->" ++ nl) in
  let section := section ++ ("- Change description" ++ nl ++ nl) in
  section.

Definition changesEntry (section : string) (entry : string * list string)
  : string :=
  let (key, files) := entry in
  if (0 <? List.length files)%nat then
    let section :=
      section ++ ("#### " ++ labelOf key categoryLabels ++ nl ++ nl) in
    let section := fold_left changesFile (slice0 5 files) section in
    if (5 <? List.length files)%nat then
      section ++ ("_...and " ++ Js.ofNat (List.length files - 5)
                  ++ " more files_" ++ nl ++ nl)
    else section
  else section.

Definition generateChangesSection (categories : FileCategories) : string :=
  let section := fold_left changesEntry (entries categories) "" in
  if Js.truthy section then section
  else "<!-- TODO: Describe your changes -->".

(** [key.charAt(0).toUpperCase() + key.slice(1)] *)
Definition capitalize (key : string) : string :=
  match key with
  | EmptyString => EmptyString
  | String c rest => String (Js.upperChar c) rest
  end.

(** [lst] is the string that the source calls [list]. *)
Definition fileListFile (lst file : string) : string :=
  lst ++ ("- `" ++ file ++ "`" ++ nl).

Definition fileListEntry (lst : string) (entry : string * list string)
  : string :=
  let (key, files) := entry in
  if (0 <? List.length files)%nat then
    let lst :=
      lst ++ ("**" ++ capitalize key ++ "** ("
               ++ Js.ofNat (List.length files) ++ "):" ++ nl) in
    let lst := fold_left fileListFile (slice0 10 files) lst in
    let lst :=
      if (10 <? List.length files)%nat then
        lst ++ ("- _...and " ++ Js.ofNat (List.length files - 10)
                 ++ " more_" ++ nl)
      else lst in
    lst ++ nl
  else lst.

Definition generateFileList (categories : FileCategories) : string :=
  let lst := fold_left fileListEntry (entries categories) "" in
  if Js.truthy lst then lst else "- No files modified".

(** The file listing of [generateAIPrompt]:
    [files.map((f) => `  - ${f}`).join('\n')]. *)
Definition promptFileList (files : list string) : string :=
  Js.join nl (map (fun f => "  - " ++ f) files).

Local Open Scope list_scope.

(** ** The data flow of [main] *)

(** [self.indexOf(file)] *)
Fixpoint indexOf (file : string) (self : list string) : option nat :=
  match self with
  | [] => None
  | x :: rest =>
      if String.eqb x file then Some 0
      else option_map S (indexOf file rest)
  end.

Fixpoint filterIndexed (p : string -> nat -> bool) (index : nat)
         (xs : list string) : list string :=
  match xs with
  | [] => []
  | x :: rest =>
      if p x index then x :: filterIndexed p (S index) rest
      else filterIndexed p (S index) rest
  end.

(** [.filter((file, index, self) => self.indexOf(file) === index)] *)
Definition removeDuplicates (self : list string) : list string :=
  filterIndexed
    (fun file index =>
       match indexOf file self with
       | Some i => (i =? index)%nat
       | None => false
       end) 0 self.

(** [allFiles.filter((file) => !config.excludePatterns.some(...))] *)
Definition keptFiles (cfg : Config) (allFiles : list string)
  : result (list string) :=
  filterM (fun file => skip <- isExcluded cfg file ;; Ok (negb skip)) allFiles.

(** *** Command line *)

(** [index !== -1 && args[index + 1] ? args[index + 1] : null], with
    [index = args.indexOf(flag)]; [None] stands for the fallback. *)
Definition flagValue (flag : string) (args : list string) : option string :=
  match indexOf flag args with
  | Some index =>
      match nth_error args (index + 1) with
      | Some v => if Js.truthy v then Some v else None
      | None => None
      end
  | None => None
  end.



(** [outputFile] *)
Definition cliOutputFile (cfg : Config) (args : list string) : value :=
  match flagValue "--output" args with
  | Some v => JString v
  | None => outputFile cfg
  end.

(** *** The run *)

(** What a run of the program meets outside itself: whether
    [git rev-parse --git-dir] succeeds, the command-line arguments, and
    what the one call of [fs.writeFileSync] does on a path or on a file
    descriptor. *)
Record World : Type := mkWorld {
  inRepo : bool;
  args : list string;
  writeFile : string -> result unit;
  writeDescriptor : Z -> result unit
}.

(** [checkGitRepo]: [process.exit(1)] outside a repository. *)
Definition checkGitRepo (w : World) : result bool :=
  if inRepo w then Ok true else Err (Exit 1).

(** [fs.writeFileSync(outputFile, template)]: a path or a file descriptor
    is written to, with the outcome the world gives; any other value is
    refused with a [TypeError]. *)
Definition writeFileSync (w : World) (file : value) : result unit :=
  match file with
  | JString path => writeFile w path
  | JNumber fd => writeDescriptor w fd
  | _ => Err (TypeError "ERR_INVALID_ARG_TYPE")
  end.

Record Summary : Type := mkSummary {
  sumFiles : list string;
  sumType : PRType;
  sumCategories : FileCategories;
  sumAnalysis : Analysis;
  sumSuggestions : list string;
  sumChanges : string;
  sumFileList : string;
  sumPromptFiles : string
}.

(** [main], from the three texts git printed: the commit subjects, the
    changed file names and the numstat report.  It ends the process
    outside a repository, and returns only when the summary has been
    written to the output file. *)
Definition main (w : World) (cfg : Config) (subjects names numstat : string)
  : result Summary :=
  inside <- checkGitRepo w ;;
  let commits := filter Js.truthy (Js.split Js.newline subjects) in
  let allFiles :=
    removeDuplicates (filter Js.truthy (Js.split Js.newline names)) in
  files <- keptFiles cfg allFiles ;;
  let prType := detectPRType commits files in
  categories <- categorizeFiles cfg files ;;
  let analysis := analyzeComplexity numstat in
  let suggestions := generateSuggestions categories prType in
  written <- writeFileSync w (cliOutputFile cfg (args w)) ;;
  Ok (mkSummary files prType categories analysis suggestions
        (generateChangesSection categories)
        (generateFileList categories)
        (promptFileList files)).

(** ** Reference notions used to state the properties *)

(** *** Runs *)

(** A run inside a repository in which every write succeeds. *)
Definition quietWorld (arguments : list string) : World :=
  mkWorld true arguments (fun _ => Ok tt) (fun _ => Ok tt).

(** *** Numstat reports *)

(** A line of a numstat report: a text file with its two counts, or any
    other line (git prints [-] for both counts of a binary file). *)
Inductive Row : Type :=
| Counted (added removed : N) (path : string)
| Uncounted (line : string).

Definition rowLine (r : Row) : string :=
  match r with
  | Counted added removed path => numstatLine (added, removed, path)
  | Uncounted line => line
  end.


(** The line git prints for a binary file. *)
Definition binaryLine (path : string) : string :=
  String "-" (String Js.tab (String "-" (String Js.tab path))).

Definition numstatReport (rows : list Row) : string :=
  Js.join nl (map rowLine rows).

Fixpoint hasChar (c : ascii) (s : string) : bool :=
  match s with
  | EmptyString => false
  | String x rest => Ascii.eqb x c || hasChar c rest
  end.

(** The value is, or may be, a number. *)
Definition isNumber (v : Js.num) : bool :=
  match v with Js.Num _ | Js.Unmodelled => true | _ => false end.

(** A row that can stand on a line of its own; an uncounted one has no
    numeric count field: each is [NaN] or missing. *)
Definition rowOk (r : Row) : bool :=
  match r with
  | Counted _ _ path => negb (hasChar Js.newline path)
  | Uncounted line =>
      Js.truthy line && negb (hasChar Js.newline line)
      && negb (isNumber (fst (numstatFields line)))
      && negb (isNumber (snd (numstatFields line)))
  end.

Definition rowAdded (r : Row) : Z :=
  match r with Counted added _ _ => Z.of_N added | Uncounted _ => 0 end.

Definition rowRemoved (r : Row) : Z :=
  match r with Counted _ removed _ => Z.of_N removed | Uncounted _ => 0 end.

Definition rowLarge (r : Row) : bool :=
  (200 <? rowAdded r + rowRemoved r)%Z.

Definition sumAdded (rows : list Row) : Z :=
  fold_right (fun r acc => (rowAdded r + acc)%Z) 0%Z rows.

Definition sumRemoved (rows : list Row) : Z :=
  fold_right (fun r acc => (rowRemoved r + acc)%Z) 0%Z rows.

Definition largeFiles (rows : list Row) : Z :=
  Z.of_nat (List.length (filter rowLarge rows)).

(** Every count and every running total, from the totals [a0] and [r0]
    on, is in range. *)
Fixpoint prefixesExact (a0 r0 : Z) (rows : list Row) : bool :=
  match rows with
  | [] => true
  | r :: rest =>
      Js.inRange (rowAdded r) && Js.inRange (rowRemoved r)
      && Js.inRange (a0 + rowAdded r) && Js.inRange (r0 + rowRemoved r)
      && prefixesExact (a0 + rowAdded r) (r0 + rowRemoved r) rest
  end.

Definition isDigit (c : ascii) : bool :=
  (48 <=? nat_of_ascii c)%nat && (nat_of_ascii c <=? 57)%nat.

Fixpoint allChars (p : ascii -> bool) (s : string) : bool :=
  match s with
  | EmptyString => true
  | String c rest => p c && allChars p rest
  end.

(** *** Ordered rules *)

(** The outcome of the first rule whose condition holds. *)
Fixpoint firstMatch {A : Type} (rules : list (bool * A)) (dflt : A) : A :=
  match rules with
  | [] => dflt
  | (cond, outcome) :: rest => if cond then outcome else firstMatch rest dflt
  end.

Definition containsAny (keywords : list string) (text : string) : bool :=
  existsb (fun k => Js.includes k text) keywords.

(** The classifier as the ordered rule list of the specification, over
    the lower-cased commit text and file text. *)
Definition classifierRules (commitText fileText : string)
  : list (bool * PRLabel) :=
  [ (containsAny ["fix"; "bug"; "resolve"] commitText, Fix);
    (containsAny ["feat"; "feature"; "add"] commitText, Feature);
    (containsAny ["refactor"; "restructure"] commitText, Refactor);
    (containsAny ["docs"; "documentation"] commitText
     || containsAny [".md"] fileText, DocsType);
    (containsAny ["test"] commitText
     || containsAny ["test"; "spec"] fileText, Test);
    (containsAny ["perf"; "performance"; "optimize"] commitText,
     Performance) ].

(** *** Categorization rules *)

Definition inDirectory (dir file : string) : bool :=
  Js.includes (dir ++ "/") file || Js.includes ("src/" ++ dir ++ "/") file.

Definition hasExtension (exts : list string) (file : string) : bool :=
  existsb (fun e => Js.endsWith ("." ++ e) file) exts.

(** [*.test.<ext>] or [*.spec.<ext>] with a script extension. *)
Definition isTestFile (file : string) : bool :=
  existsb (fun kind =>
             existsb (fun e => Js.endsWith ("." ++ kind ++ "." ++ e) file)
                     ["ts"; "tsx"; "js"; "jsx"])
          ["test"; "spec"].

Definition isDoc (file : string) : bool :=
  Js.endsWith ".md" file && negb (Js.includes "node_modules" file).

Definition isConfig (file : string) : bool :=
  hasExtension ["json"; "yml"; "yaml"] file
  || Js.endsWith ".config.ts" file || Js.endsWith ".config.js" file.

Definition directoryRules (file : string) : list (bool * Category) :=
  [ (inDirectory "components" file, Components);
    (inDirectory "hooks" file, Hooks);
    (inDirectory "utils" file, Utils);
    (inDirectory "types" file, Types) ].

(** The categorizer as an ordered rule list, in the priority order
    components, hooks, utils, types, styles, tests, scripts, docs,
    config. *)
Definition categoryRules (file : string) : list (bool * Category) :=
  directoryRules file ++
  [ (hasExtension ["scss"; "css"; "less"; "sass"] file, Styles);
    (isTestFile file, Tests);
    (inDirectory "scripts" file, Scripts);
    (isDoc file, Docs);
    (isConfig file, ConfigFiles) ].

(** The rules that come before the docs rule. *)
Definition rulesBeforeDocs (file : string) : list (bool * Category) :=
  firstn 7 (categoryRules file).

Definition noRuleMatches {A : Type} (rules : list (bool * A)) : bool :=
  forallb (fun rule : bool * A => negb (fst rule)) rules.

Definition allCategories : list Category :=
  [ Components; Hooks; Utils; Types; Styles;
    Tests; Docs; ConfigFiles; Scripts; Other ].

Definition categoryKey (c : Category) : string :=
  match c with
  | Components => "components"
  | Hooks => "hooks"
  | Utils => "utils"
  | Types => "types"
  | Styles => "styles"
  | Tests => "tests"
  | Docs => "docs"
  | ConfigFiles => "config"
  | Scripts => "scripts"
  | Other => "other"
  end.

Definition category_eqb (a b : Category) : bool :=
  String.eqb (categoryKey a) (categoryKey b).

(** A configuration whose exclusion patterns are all RegExp objects, as
    in [defaultConfig]. *)
Definition regexPatterns (cfg : Config) (res : list regex) : Prop :=
  excludePatterns cfg = JArray (map JRegExp res).

Definition matchesAny (res : list regex) (file : string) : bool :=
  existsb (fun r => test r file) res.

(** *** Finite regular expressions *)

(** No anchor occurs in the expression. *)
Fixpoint plain (r : regex) : bool :=
  match r with
  | Lit _ => true
  | Bol | Eol => false
  | Seq a b | Alt a b => plain a && plain b
  end.

(** The words of an anchor-free expression. *)
Fixpoint words (r : regex) : list string :=
  match r with
  | Lit p => [p]
  | Bol | Eol => []
  | Seq a b =>
      flat_map (fun x => map (fun y => (x ++ y)%string) (words b)) (words a)
  | Alt a b => words a ++ words b
  end.

Fixpoint lastChar (s : string) : option ascii :=
  match s with
  | EmptyString => None
  | String c EmptyString => Some c
  | String _ rest => lastChar rest
  end.

(** *** Suggestion rules *)

Definition isNil {A : Type} (xs : list A) : bool :=
  match xs with [] => true | _ :: _ => false end.

(** The suggestion rules in priority order, each with its messages. *)
Definition suggestionRules (categories : FileCategories) (label : PRLabel)
  : list (bool * list string) :=
  [ (negb (isNil (components categories)),
     [msgScreenshots; msgAccessibility]);
    (negb (isNil (hooks categories)), [msgHooks]);
    (negb (isNil (utils categories)), [msgUtils]);
    (isNil (tests categories)
     && match label with DocsType => false | _ => true end, [msgNoTests]);
    (negb (isNil (types categories)), [msgTypes]);
    (negb (isNil (styles categories)), [msgResponsive; msgDarkMode]) ].

Definition firedMessages (rules : list (bool * list string)) : list string :=
  flat_map (fun rule : bool * list string =>
              if fst rule then snd rule else []) rules.

(** *** Structure of the rendered sections *)

Inductive Piece : Type :=
| Heading (key : string) (count : nat)
| Item (file : string)
| More (hidden : nat)
| BlankLine.

(** The pieces one category contributes: nothing when it is empty, else a
    heading, the first [limit] files, a truncation note when files
    remain, and for the file list a closing blank line. *)
Definition blockPieces (limit : nat) (closing : bool)
           (entry : string * list string) : list Piece :=
  let (key, files) := entry in
  match files with
  | [] => []
  | _ :: _ =>
      Heading key (List.length files)
      :: map Item (firstn limit files)
      ++ (if (limit <? List.length files)%nat
          then [More (List.length files - limit)] else [])
      ++ (if closing then [BlankLine] else [])
  end.

Definition changesText (p : Piece) : string :=
  match p with
  | Heading key _ => ("#### " ++ labelOf key categoryLabels ++ nl ++ nl)%string
  | Item file =>
      ("**`" ++ file ++ "`**" ++ nl ++ nl
       ++ "<!-- TODO: Describe changes in this file -->" ++ nl
       ++ "- Change description" ++ nl ++ nl)%string
  | More hidden =>
      ("_...and " ++ Js.ofNat hidden ++ " more files_" ++ nl ++ nl)%string
  | BlankLine => ""
  end.

Definition fileListText (p : Piece) : string :=
  match p with
  | Heading key count =>
      ("**" ++ capitalize key ++ "** (" ++ Js.ofNat count ++ "):" ++ nl)%string
  | Item file => ("- `" ++ file ++ "`" ++ nl)%string
  | More hidden => ("- _...and " ++ Js.ofNat hidden ++ " more_" ++ nl)%string
  | BlankLine => nl
  end.

Definition renderPieces (text : Piece -> string) (ps : list Piece) : string :=
  String.concat "" (map text ps).

Definition isItem (p : Piece) : bool :=
  match p with Item _ => true | _ => false end.

Definition categoryOrder : list string :=
  [ "components"; "hooks"; "utils"; "types"; "styles";
    "tests"; "docs"; "config"; "scripts"; "other" ].

(** ** Configuration files *)

(** [configFiles] of [loadConfig]: the candidates after [.filter(Boolean)]. *)
Definition configFiles (configPath : option string) : list string :=
  match configPath with
  | Some p => if Js.truthy p then [p] else []
  | None => []
  end
  ++ [".prsummaryrc.json"; ".prsummaryrc"; "prsummary.config.json"].

(** [loadConfig(configPath)] over a file system: [fs file] is [None] when
    [fs.existsSync] is false, [Some None] when reading or parsing throws,
    and [Some (Some v)] when [JSON.parse] returns [v]. *)
Definition loadConfigFrom (fs : string -> option (option value))
           (configPath : option string) : Config :=
  loadConfig
    (flat_map (fun file => match fs file with
                           | Some outcome => [outcome]
                           | None => []
                           end)
              (configFiles configPath)).

(** *** Further reference notions *)

Definition isRegExp (v : value) : bool :=
  match v with JRegExp _ => true | _ => false end.

(** An [excludePatterns] value on which the first [pattern.test] call, or
    [.some] itself, throws. *)
Definition throwingPatterns (v : value) : bool :=
  match v with
  | JArray [] => false
  | JArray (first :: _) => negb (isRegExp first)
  | _ => true
  end.

Definition mem (x : string) (xs : list string) : bool :=
  existsb (String.eqb x) xs.

(** The first occurrences of [xs] that are not in [seen], in order. *)
Fixpoint firstOccurrences (seen xs : list string) : list string :=
  match xs with
  | [] => []
  | x :: rest =>
      if mem x seen then firstOccurrences (seen ++ [x]) rest
      else x :: firstOccurrences (seen ++ [x]) rest
  end.

(** Some item contains, in any letter case, one of the keywords. *)
Definition anyItem (keywords items : list string) : bool :=
  existsb (fun item => containsAny keywords (Js.toLowerCase item)) items.

(** The classifier rules on the single commit subjects and paths. *)
Definition itemRules (commits files : list string) : list (bool * PRLabel) :=
  [ (anyItem ["fix"; "bug"; "resolve"] commits, Fix);
    (anyItem ["feat"; "feature"; "add"] commits, Feature);
    (anyItem ["refactor"; "restructure"] commits, Refactor);
    (anyItem ["docs"; "documentation"] commits || anyItem [".md"] files,
     DocsType);
    (anyItem ["test"] commits || anyItem ["test"; "spec"] files, Test);
    (anyItem ["perf"; "performance"; "optimize"] commits, Performance) ].

Definition emojiOf (l : PRLabel) : string :=
  match l with
  | Fix => "🐛"
  | Feature => "✨"
  | Refactor => "♻️"
  | DocsType => "📝"
  | Test => "🧪"
  | Performance => "⚡"
  | Chore => "🔧"
  end.

(** The categorizer rules without the [src/...] tests. *)
Definition shortRules (file : string) : list (bool * Category) :=
  [ (Js.includes "components/" file, Components);
    (Js.includes "hooks/" file, Hooks);
    (Js.includes "utils/" file, Utils);
    (Js.includes "types/" file, Types);
    (hasExtension ["scss"; "css"; "less"; "sass"] file, Styles);
    (isTestFile file, Tests);
    (Js.includes "scripts/" file, Scripts);
    (isDoc file, Docs);
    (isConfig file, ConfigFiles) ].

(** What the lines add to the three counters. *)
Definition lineAdded (l : string) : Z := Js.orZero (fst (numstatFields l)).
Definition lineRemoved (l : string) : Z := Js.orZero (snd (numstatFields l)).
Definition lineLarge (l : string) : Z :=
  if Js.gt (Js.add (fst (numstatFields l)) (snd (numstatFields l))) 200
  then 1%Z else 0%Z.

Definition sumOver (f : string -> Z) (ls : list string) : Z :=
  fold_right (fun l acc => (f l + acc)%Z) 0%Z ls.

Definition rowCounts (r : Row) : option (N * N) :=
  match r with
  | Counted added removed _ => Some (added, removed)
  | Uncounted _ => None
  end.

Definition allEmpty (cats : FileCategories) : bool :=
  forallb (fun c => isNil (bucket c cats)) allCategories.

(** * Properties *)

(** Case analysis on every integer comparison of the goal. *)
Ltac case_thresholds :=
  repeat match goal with
         | |- context [(?a <? ?b)%Z] => destruct (Z.ltb_spec a b)
         end.

(** ** Strings *)

Section StringFacts.

Lemma append_nil_r (s : string) : (s ++ "")%string = s.
Proof. induction s as [|c s IH]; simpl; [reflexivity | now rewrite IH]. Qed.

Lemma append_assoc (a b c : string) :
  ((a ++ b) ++ c)%string = (a ++ (b ++ c))%string.
Proof. induction a as [|x a IH]; simpl; [reflexivity | now rewrite IH]. Qed.

Lemma hasChar_append (c : ascii) (a b : string) :
  hasChar c (a ++ b) = hasChar c a || hasChar c b.
Proof.
  induction a as [|x a IH]; simpl; [reflexivity|].
  now rewrite IH, orb_assoc.
Qed.

Lemma split_without (c : ascii) (s : string) :
  hasChar c s = false -> Js.split c s = [s].
Proof.
  induction s as [|x s IH]; simpl; intros H; [reflexivity|].
  apply orb_false_elim in H as [Hx Hs].
  rewrite Hx, (IH Hs). reflexivity.
Qed.

Lemma split_at_first (c : ascii) (s t : string) :
  hasChar c s = false ->
  Js.split c (s ++ String c t) = s :: Js.split c t.
Proof.
  induction s as [|x s IH]; simpl; intros H.
  - now rewrite Ascii.eqb_refl.
  - apply orb_false_elim in H as [Hx Hs].
    rewrite Hx, (IH Hs). reflexivity.
Qed.

Lemma split_join_lines (l : string) (ls : list string) :
  forallb (fun x => negb (hasChar Js.newline x)) (l :: ls) = true ->
  Js.split Js.newline (Js.join nl (l :: ls)) = l :: ls.
Proof.
  revert l. induction ls as [|m ls IH]; intros l H.
  - simpl in *. apply split_without.
    rewrite andb_true_r in H. now apply negb_true_iff.
  - change (Js.join nl (l :: m :: ls))
      with (l ++ String Js.newline (Js.join nl (m :: ls)))%string.
    simpl in H. apply andb_true_iff in H as [Hl Hr].
    rewrite split_at_first by now apply negb_true_iff.
    f_equal. apply IH. exact Hr.
Qed.

End StringFacts.

(** ** Printing and reading back a count *)

Section Counts.

Lemma digits_of_uint (d : Decimal.uint) :
  allChars isDigit (NilEmpty.string_of_uint d) = true.
Proof. induction d; simpl; auto. Qed.

Lemma digits_of_N (n : N) :
  allChars isDigit (NilZero.string_of_uint (N.to_uint n)) = true.
Proof.
  unfold NilZero.string_of_uint.
  destruct (N.to_uint n) eqn:E; try reflexivity;
    rewrite <- E; apply digits_of_uint.
Qed.

Lemma allChars_hasChar (p : ascii -> bool) (c : ascii) (s : string) :
  p c = false -> allChars p s = true -> hasChar c s = false.
Proof.
  intros Hc. induction s as [|x s IH]; simpl; [reflexivity|].
  intros H. apply andb_true_iff in H as [Hx Hs].
  rewrite (IH Hs), orb_false_r.
  destruct (Ascii.eqb_spec x c) as [->|]; [congruence | reflexivity].
Qed.

Lemma digit_not_white (c : ascii) : isDigit c = true -> Js.isWhite c = false.
Proof.
  unfold isDigit, Js.isWhite. intros H.
  apply andb_true_iff in H as [H1 H2].
  apply Nat.leb_le in H1. apply Nat.leb_le in H2.
  apply orb_false_iff. split.
  - apply andb_false_iff. right. apply Nat.leb_gt. lia.
  - apply Nat.eqb_neq. lia.
Qed.

Lemma trimEnd_digits (s : string) :
  allChars isDigit s = true -> Js.trimEnd s = s.
Proof.
  induction s as [|c s IH]; simpl; [reflexivity|].
  intros H. apply andb_true_iff in H as [Hc Hs].
  rewrite (IH Hs), (digit_not_white _ Hc). now destruct s.
Qed.

Lemma trim_digits (s : string) :
  allChars isDigit s = true -> Js.trim s = s.
Proof.
  intros H. unfold Js.trim.
  assert (Js.trimStart s = s) as ->.
  { destruct s as [|c s]; [reflexivity|]. simpl in *.
    apply andb_true_iff in H as [Hc _].
    now rewrite (digit_not_white _ Hc). }
  now apply trimEnd_digits.
Qed.

Lemma Number_digits (c : ascii) (s : string) (z : Z) :
  allChars isDigit (String c s) = true ->
  Js.digits (String c s) = Js.Num z ->
  Js.Number (String c s) = Js.Num z.
Proof.
  intros H E. unfold Js.Number. rewrite (trim_digits _ H).
  simpl in H. apply andb_true_iff in H as [Hc _].
  destruct c as [[] [] [] [] [] [] [] []]; try discriminate Hc;
    now rewrite E.
Qed.

Lemma Number_of_N (n : N) :
  Js.Number (NilZero.string_of_uint (N.to_uint n)) = Js.Num (Z.of_N n).
Proof.
  pose proof (digits_of_N n) as H.
  assert (NilZero.string_of_uint (N.to_uint n)
          = NilEmpty.string_of_uint (N.to_uint n)) as E.
  { unfold NilZero.string_of_uint.
    destruct n as [|p]; [reflexivity|].
    simpl. pose proof (DecimalPos.Unsigned.to_uint_nonnil p) as Hp.
    destruct (Pos.to_uint p); [congruence | reflexivity ..]. }
  destruct (NilZero.string_of_uint (N.to_uint n)) as [|c s] eqn:Es.
  - exfalso. revert Es. unfold NilZero.string_of_uint.
    destruct (N.to_uint n); discriminate.
  - apply (Number_digits _ _ _ H). unfold Js.digits.
    rewrite E, NilEmpty.usu, DecimalN.Unsigned.of_to. reflexivity.
Qed.

Lemma numstatFields_numstatLine (added removed : N) (path : string) :
  numstatFields (numstatLine (added, removed, path))
  = (Js.Num (Z.of_N added), Js.Num (Z.of_N removed)).
Proof.
  unfold numstatFields, numstatLine.
  assert (forall n, hasChar Js.tab (NilZero.string_of_uint (N.to_uint n))
                    = false) as Htab.
  { intros n. apply (allChars_hasChar isDigit); [reflexivity|].
    apply digits_of_N. }
  rewrite split_at_first by apply Htab.
  rewrite split_at_first by apply Htab.
  simpl map. now rewrite !Number_of_N.
Qed.

End Counts.

(** ** Complexity / risk analyzer *)

Section Analyzer.

Lemma tierLe_refl (t : Tier) : tierLe t t.
Proof. unfold tierLe. lia. Qed.

Lemma complexityOf_mono (tc tc' lf lf' : Z) :
  (tc <= tc')%Z -> (lf <= lf')%Z ->
  tierLe (complexityOf tc lf) (complexityOf tc' lf').
Proof.
  intros Ht Hl. unfold complexityOf, tierLe.
  case_thresholds; simpl; lia.
Qed.

Lemma riskOf_mono (a r tc lf a' r' tc' lf' : Z) :
  (tc <= tc')%Z -> (lf <= lf')%Z ->
  ((a * 2 < r)%Z -> (a' * 2 < r')%Z) ->
  tierLe (riskOf a r tc lf) (riskOf a' r' tc' lf').
Proof.
  intros Ht Hl Hr. unfold riskOf, tierLe.
  case_thresholds; simpl; lia.
Qed.

Lemma countFields_uncounted (c : Counters) (x y : Js.num) :
  isNumber x = false -> isNumber y = false ->
  countFields c (x, y)
  = mkCounters (cAdded c) (cRemoved c) (cLarge c)
               (cExact c && Js.inRange (cAdded c)
                && Js.inRange (cRemoved c)).
Proof.
  destruct c as [a r l e].
  destruct x; destruct y; try discriminate; intros _ _;
    unfold countFields; simpl; now rewrite !Z.add_0_r, !andb_true_r.
Qed.

Lemma countLine_row (c : Counters) (r : Row) :
  rowOk r = true ->
  countLine c (rowLine r)
  = mkCounters (cAdded c + rowAdded r) (cRemoved c + rowRemoved r)
               (cLarge c + (if rowLarge r then 1 else 0))
               (cExact c && Js.inRange (rowAdded r)
                && Js.inRange (rowRemoved r)
                && Js.inRange (cAdded c + rowAdded r)
                && Js.inRange (cRemoved c + rowRemoved r)).
Proof.
  destruct r as [added removed path | line]; intros H.
  - unfold countLine, rowLine. rewrite numstatFields_numstatLine.
    unfold countFields, rowLarge.
    cbn [rowAdded rowRemoved Js.orZero Js.add Js.gt Js.modelled].
    destruct (200 <? Z.of_N added + Z.of_N removed)%Z;
      now rewrite ?Z.add_0_r.
  - unfold countLine, rowLine. cbn [rowOk] in H.
    repeat (apply andb_true_iff in H as [H ?]).
    destruct (numstatFields line) as [x y]. cbn [fst snd] in *.
    rewrite countFields_uncounted by now apply negb_true_iff.
    cbn [rowAdded rowRemoved rowLarge].
    change (Js.inRange 0) with true.
    now rewrite !Z.add_0_r, !andb_true_r.
Qed.

Lemma largeFiles_cons (r : Row) (rows : list Row) :
  largeFiles (r :: rows)
  = ((if rowLarge r then 1 else 0) + largeFiles rows)%Z.
Proof.
  unfold largeFiles. simpl. destruct (rowLarge r); simpl List.length; lia.
Qed.

Lemma fold_countLine_rows (rows : list Row) (c : Counters) :
  forallb rowOk rows = true ->
  fold_left countLine (map rowLine rows) c
  = mkCounters (cAdded c + sumAdded rows) (cRemoved c + sumRemoved rows)
               (cLarge c + largeFiles rows)
               (cExact c && prefixesExact (cAdded c) (cRemoved c) rows).
Proof.
  revert c. induction rows as [|r rows IH]; intros c H.
  - destruct c; simpl. unfold largeFiles. simpl.
    now rewrite !Z.add_0_r, andb_true_r.
  - simpl in H. apply andb_true_iff in H as [Hr Hrows].
    simpl fold_left. rewrite (countLine_row _ _ Hr), (IH _ Hrows).
    rewrite largeFiles_cons.
    cbn [cAdded cRemoved cLarge cExact prefixesExact].
    change (sumAdded (r :: rows)) with (rowAdded r + sumAdded rows)%Z.
    change (sumRemoved (r :: rows))
      with (rowRemoved r + sumRemoved rows)%Z.
    f_equal; try lia. repeat rewrite andb_assoc. reflexivity.
Qed.

Lemma rowLine_truthy (r : Row) : rowOk r = true -> Js.truthy (rowLine r) = true.
Proof.
  destruct r as [added removed path | line]; simpl.
  - intros _. unfold numstatLine, NilZero.string_of_uint.
    destruct (N.to_uint added); reflexivity.
  - intros H. repeat (apply andb_true_iff in H as [H ?]). exact H.
Qed.

Lemma rowLine_one_line (r : Row) :
  rowOk r = true -> negb (hasChar Js.newline (rowLine r)) = true.
Proof.
  destruct r as [added removed path | line]; simpl.
  - intros H. unfold numstatLine. apply negb_true_iff in H.
    apply negb_true_iff.
    assert (forall n, hasChar Js.newline
                        (NilZero.string_of_uint (N.to_uint n)) = false) as Hd.
    { intros n. apply (allChars_hasChar isDigit); [reflexivity|].
      apply digits_of_N. }
    rewrite hasChar_append, Hd. simpl.
    rewrite hasChar_append, Hd. simpl. exact H.
  - intros H. repeat (apply andb_true_iff in H as [H ?]). assumption.
Qed.

Lemma filter_all {A : Type} (p : A -> bool) (xs : list A) :
  forallb p xs = true -> filter p xs = xs.
Proof.
  induction xs as [|x xs IH]; simpl; [reflexivity|].
  intros H. apply andb_true_iff in H as [Hx Hxs].
  now rewrite Hx, IH.
Qed.

Lemma lines_of_report (rows : list Row) :
  forallb rowOk rows = true ->
  filter Js.truthy (Js.split Js.newline (numstatReport rows))
  = map rowLine rows.
Proof.
  intros H. destruct rows as [|r rows]; [reflexivity|].
  unfold numstatReport. change (map rowLine (r :: rows))
    with (rowLine r :: map rowLine rows).
  rewrite split_join_lines.
  - apply filter_all.
    change (rowLine r :: map rowLine rows) with (map rowLine (r :: rows)).
    rewrite forallb_forall in *. intros x Hx.
    apply in_map_iff in Hx as (r0 & <- & Hr0).
    apply rowLine_truthy. now apply H.
  - change (rowLine r :: map rowLine rows) with (map rowLine (r :: rows)).
    rewrite forallb_forall in *. intros x Hx.
    apply in_map_iff in Hx as (r0 & <- & Hr0).
    apply rowLine_one_line. now apply H.
Qed.

(** The analyzer on a report, in terms of the rows that were printed. *)
Lemma analyzeComplexity_report (rows : list Row) :
  forallb rowOk rows = true ->
  analyzeComplexity (numstatReport rows)
  = report (mkCounters (sumAdded rows) (sumRemoved rows) (largeFiles rows)
                       (prefixesExact 0 0 rows))
           (List.length rows).
Proof.
  intros H. unfold analyzeComplexity.
  rewrite (lines_of_report _ H), (fold_countLine_rows _ _ H).
  now rewrite length_map.
Qed.

Lemma sumAdded_app (xs ys : list Row) :
  sumAdded (xs ++ ys) = (sumAdded xs + sumAdded ys)%Z.
Proof. induction xs as [|x xs IH]; simpl; [reflexivity | rewrite IH; lia]. Qed.

Lemma sumRemoved_app (xs ys : list Row) :
  sumRemoved (xs ++ ys) = (sumRemoved xs + sumRemoved ys)%Z.
Proof. induction xs as [|x xs IH]; simpl; [reflexivity | rewrite IH; lia]. Qed.

Lemma largeFiles_app (xs ys : list Row) :
  largeFiles (xs ++ ys) = (largeFiles xs + largeFiles ys)%Z.
Proof.
  induction xs as [|x xs IH]; [reflexivity|].
  simpl app. rewrite !largeFiles_cons, IH. lia.
Qed.

Lemma fold_countLine_counts (ls : list string) :
  forall c,
    (cAdded (fold_left countLine ls c) = cAdded c + sumOver lineAdded ls /\
     cRemoved (fold_left countLine ls c)
     = cRemoved c + sumOver lineRemoved ls /\
     cLarge (fold_left countLine ls c)
     = cLarge c + sumOver lineLarge ls)%Z.
Proof.
  induction ls as [|l ls IH]; intros c; simpl; [lia|].
  destruct (IH (countLine c l)) as (-> & -> & ->).
  unfold countLine, lineAdded, lineRemoved, lineLarge.
  destruct (numstatFields l) as [x y]. unfold countFields.
  cbn [cAdded cRemoved cLarge fst snd].
  destruct (Js.gt (Js.add x y) 200); lia.
Qed.

End Analyzer.

Section AnalyzerClaims.

Local Open Scope Z_scope.






Lemma rowOk_replace (pre post : list Row) (a r a' r' : N) (p : string) :
  forallb rowOk (pre ++ Counted a r p :: post) = true ->
  forallb rowOk (pre ++ Counted a' r' p :: post) = true.
Proof.
  rewrite !forallb_app. simpl. auto.
Qed.

(** C1 (amended). Raising one file's added+removed count never lowers
    the complexity tier.  It never lowers the risk tier either as long
    as the rule totalRemoved > 2 x totalAdded, if it fired before, still
    fires after; this is so whenever the file's added count is
    unchanged. *)
Theorem analyzer_monotone (pre post : list Row) (a r a' r' : N)
        (p : string) :
  forallb rowOk (pre ++ Counted a r p :: post) = true ->
  (a + r <= a' + r')%N ->
  let before :=
    analyzeComplexity (numstatReport (pre ++ Counted a r p :: post)) in
  let after :=
    analyzeComplexity (numstatReport (pre ++ Counted a' r' p :: post)) in
  tierLe (complexity before) (complexity after) /\
  ((totalRemoved before > 2 * totalAdded before ->
    totalRemoved after > 2 * totalAdded after) ->
   tierLe (risk before) (risk after)) /\
  (a' = a -> tierLe (risk before) (risk after)).
Proof.
  intros H Hle before after. subst before after.
  rewrite (analyzeComplexity_report _ H).
  rewrite (analyzeComplexity_report _ (rowOk_replace _ _ _ _ a' r' _ H)).
  unfold report. cbn [complexity risk totalAdded totalRemoved
                      cAdded cRemoved cLarge].
  rewrite !sumAdded_app, !sumRemoved_app, !largeFiles_app.
  rewrite !largeFiles_cons. unfold rowLarge.
  cbn [sumAdded sumRemoved fold_right rowAdded rowRemoved].
  assert (Z.of_N a + Z.of_N r <= Z.of_N a' + Z.of_N r') as Hz by lia.
  assert ((if 200 <? Z.of_N a + Z.of_N r then 1 else 0)
          <= (if 200 <? Z.of_N a' + Z.of_N r' then 1 else 0)) as Hl.
  { destruct (Z.ltb_spec 200 (Z.of_N a + Z.of_N r));
      destruct (Z.ltb_spec 200 (Z.of_N a' + Z.of_N r')); lia. }
  split; [apply complexityOf_mono; lia|].
  split.
  - intros Hr. apply riskOf_mono; try lia.
  - intros ->. apply riskOf_mono; try lia.
Qed.

Lemma analyzer_monotone_witness :
  let before :=
    analyzeComplexity
      (numstatReport [Counted 10 5 "a.js"; Counted 100 90 "b.js"]) in
  let after :=
    analyzeComplexity
      (numstatReport [Counted 10 5 "a.js"; Counted 100 450 "b.js"]) in
  tierLe (complexity before) (complexity after) /\
  tierLe (risk before) (risk after).
Proof.
  pose proof (analyzer_monotone [Counted 10 5 "a.js"] [] 100 90 100 450
                "b.js" eq_refl) as M.
  cbv zeta in M.
  destruct M as (Mc & _ & Mr); [vm_compute; discriminate|].
  split; [exact Mc | exact (Mr eq_refl)].
Defined.

(** C1 as stated fails for the risk tier: with 0 added and 10 removed
    lines the risk is Medium, and raising the added count to 5 makes it
    Low. *)
Lemma analyzer_risk_not_monotone :
  let before := analyzeComplexity (numstatReport [Counted 0 10 "a.js"]) in
  let after := analyzeComplexity (numstatReport [Counted 5 10 "a.js"]) in
  (0 + 10 < 5 + 10)%N /\
  risk before = Medium /\ risk after = Low /\
  ~ tierLe (risk before) (risk after).
Proof.
  cbv zeta. split; [reflexivity|].
  split; [reflexivity|]. split; [reflexivity|].
  vm_compute. lia.
Qed.

End AnalyzerClaims.

(** ** Regular expressions *)

Section RegexFacts.

Lemma existsb_eq {A : Type} (f g : A -> bool) (xs : list A) :
  (forall x, f x = g x) -> existsb f xs = existsb g xs.
Proof.
  intros E. induction xs as [|x xs IH]; simpl; [reflexivity|].
  now rewrite E, IH.
Qed.

Lemma existsb_orb {A : Type} (f g : A -> bool) (xs : list A) :
  existsb (fun x => f x || g x) xs = existsb f xs || existsb g xs.
Proof.
  induction xs as [|x xs IH]; simpl; [reflexivity|].
  rewrite IH. destruct (f x), (g x), (existsb f xs); reflexivity.
Qed.

Lemma existsb_flat_map {A B : Type} (f : B -> bool) (g : A -> list B)
      (xs : list A) :
  existsb f (flat_map g xs) = existsb (fun x => existsb f (g x)) xs.
Proof.
  induction xs as [|x xs IH]; simpl; [reflexivity|].
  now rewrite existsb_app, IH.
Qed.

Lemma existsb_map {A B : Type} (f : B -> bool) (g : A -> B) (xs : list A) :
  existsb f (map g xs) = existsb (fun x => f (g x)) xs.
Proof.
  induction xs as [|x xs IH]; simpl; [reflexivity | now rewrite IH].
Qed.

Lemma existsb_never {A : Type} (xs : list A) :
  existsb (fun _ => false) xs = false.
Proof. induction xs; simpl; auto. Qed.

Lemma stripPrefix_append (a b s : string) :
  stripPrefix (a ++ b) s
  = match stripPrefix a s with
    | Some rest => stripPrefix b rest
    | None => None
    end.
Proof.
  revert s. induction a as [|x a IH]; intros s; simpl; [reflexivity|].
  destruct s as [|y s]; [reflexivity|].
  destruct (Ascii.eqb x y); [apply IH | reflexivity].
Qed.

Lemma isEmpty_append (a b : string) :
  isEmpty (a ++ b) = isEmpty a && isEmpty b.
Proof. destruct a; reflexivity. Qed.

(** An anchor-free expression matches at a position exactly when one of
    its words is a prefix there. *)
Lemma matchAt_words (r : regex) :
  plain r = true ->
  forall bol s k,
    matchAt r bol s k
    = existsb (fun w => match stripPrefix w s with
                        | Some rest => k (bol && isEmpty w) rest
                        | None => false
                        end) (words r).
Proof.
  induction r as [p | | | a IHa b IHb | a IHa b IHb]; simpl;
    intros Hp bol s k; try discriminate.
  - now rewrite orb_false_r.
  - apply andb_true_iff in Hp as [Ha Hb].
    rewrite (IHa Ha), existsb_flat_map.
    apply existsb_eq. intros x.
    rewrite existsb_map.
    destruct (stripPrefix x s) as [rest|] eqn:Ex.
    + rewrite (IHb Hb). apply existsb_eq. intros y.
      rewrite stripPrefix_append, Ex, isEmpty_append, andb_assoc.
      reflexivity.
    + symmetry. erewrite existsb_eq; [apply existsb_never|].
      intros y. now rewrite stripPrefix_append, Ex.
  - apply andb_true_iff in Hp as [Ha Hb].
    now rewrite (IHa Ha), (IHb Hb), existsb_app.
Qed.

Lemma stripPrefix_all (w s : string) :
  match stripPrefix w s with
  | Some EmptyString => true
  | _ => false
  end = String.eqb w s.
Proof.
  revert s. induction w as [|x w IH]; intros [|y s]; simpl; try reflexivity.
  destruct (Ascii.eqb x y); [apply IH | reflexivity].
Qed.

Lemma stripPrefix_prefix (w s : string) :
  match stripPrefix w s with Some _ => true | None => false end
  = String.prefix w s.
Proof.
  revert s. induction w as [|x w IH]; intros [|y s]; simpl; try reflexivity.
  destruct (Ascii.eqb_spec x y) as [->|Hn].
  - destruct (ascii_dec y y); [apply IH | congruence].
  - destruct (ascii_dec x y); [congruence | reflexivity].
Qed.

(** [body$] finds a match exactly when the input ends with a word of
    [body]. *)
Lemma test_suffix (body : regex) (s : string) :
  plain body = true ->
  test (Seq body Eol) s = existsb (fun w => Js.endsWith w s) (words body).
Proof.
  intros Hp. unfold test. generalize true as bol.
  induction s as [|c s IH]; intros bol.
  - simpl. rewrite (matchAt_words _ Hp), orb_false_r.
    apply existsb_eq. intros w. rewrite orb_false_r.
    rewrite <- stripPrefix_all. now destruct (stripPrefix w "") as [[|]|].
  - cbn [search Js.endsWith]. rewrite IH, existsb_orb. f_equal.
    cbn [matchAt]. rewrite (matchAt_words _ Hp).
    apply existsb_eq. intros w. rewrite <- stripPrefix_all.
    now destruct (stripPrefix w (String c s)) as [[|]|].
Qed.

Lemma search_not_bol (body : regex) (s : string) :
  search (Seq Bol body) false s = false.
Proof. induction s as [|c s IH]; simpl; auto. Qed.

(** [^body] finds a match exactly when the input starts with a word of
    [body]. *)
Lemma test_prefix (body : regex) (s : string) :
  plain body = true ->
  test (Seq Bol body) s = existsb (fun w => String.prefix w s) (words body).
Proof.
  intros Hp. unfold test.
  assert (search (Seq Bol body) true s
          = matchAt body true s (fun _ _ => true)) as ->.
  { destruct s as [|c s]; simpl; [now rewrite orb_false_r|].
    now rewrite search_not_bol, orb_false_r. }
  rewrite (matchAt_words _ Hp). apply existsb_eq. intros w.
  rewrite <- stripPrefix_prefix. now destruct (stripPrefix w s).
Qed.

(** [^body$] matches exactly the words of [body]. *)
Lemma test_whole (body : regex) (s : string) :
  plain body = true ->
  test (Seq Bol (Seq body Eol)) s
  = existsb (fun w => String.eqb w s) (words body).
Proof.
  intros Hp. unfold test.
  assert (search (Seq Bol (Seq body Eol)) true s
          = matchAt (Seq body Eol) true s (fun _ _ => true)) as ->.
  { destruct s as [|c s]; simpl; [now rewrite orb_false_r|].
    now rewrite search_not_bol, orb_false_r. }
  cbn [matchAt]. rewrite (matchAt_words _ Hp). apply existsb_eq.
  intros w. rewrite <- stripPrefix_all.
  now destruct (stripPrefix w s) as [[|]|].
Qed.

Lemma search_same (r1 r2 : regex) :
  (forall bol s, matchAt r1 bol s (fun _ _ => true)
                 = matchAt r2 bol s (fun _ _ => true)) ->
  forall bol s, search r1 bol s = search r2 bol s.
Proof.
  intros E bol s. revert bol.
  induction s as [|c s IH]; intros bol; simpl; rewrite E; [reflexivity|].
  now rewrite IH.
Qed.

(** Sequencing associates. *)
Lemma test_seq_assoc (a b c : regex) (s : string) :
  test (Seq a (Seq b c)) s = test (Seq (Seq a b) c) s.
Proof. unfold test. apply search_same. reflexivity. Qed.

Lemma test_stylesRe (file : string) :
  test stylesRe file = hasExtension ["scss"; "css"; "less"; "sass"] file.
Proof.
  unfold stylesRe. rewrite test_seq_assoc, test_suffix by reflexivity.
  reflexivity.
Qed.

Lemma test_testsRe (file : string) : test testsRe file = isTestFile file.
Proof.
  unfold testsRe.
  rewrite test_seq_assoc, test_seq_assoc, test_seq_assoc.
  rewrite test_suffix by reflexivity.
  cbn. unfold isTestFile. cbn.
  repeat rewrite orb_false_r. repeat rewrite <- orb_assoc. reflexivity.
Qed.

Lemma test_configRe (file : string) : test configRe file = isConfig file.
Proof.
  unfold configRe. rewrite test_seq_assoc, test_suffix by reflexivity.
  cbn. unfold isConfig, hasExtension. cbn.
  repeat rewrite orb_false_r. repeat rewrite <- orb_assoc. reflexivity.
Qed.

End RegexFacts.

(** ** File categorizer *)

Section Categorizer.

Lemma categoryOf_rules (file : string) :
  categoryOf file = firstMatch (categoryRules file) Other.
Proof.
  unfold categoryOf.
  rewrite test_stylesRe, test_testsRe, test_configRe.
  reflexivity.
Qed.

Lemma category_eqb_eq (a b : Category) : category_eqb a b = true <-> a = b.
Proof. destruct a, b; split; (reflexivity || discriminate). Qed.

Lemma category_eqb_refl (a : Category) : category_eqb a a = true.
Proof. now apply category_eqb_eq. Qed.

Lemma bucket_push (c c' : Category) (file : string) (cs : FileCategories) :
  bucket c (push c' file cs)
  = if category_eqb c' c then bucket c cs ++ [file] else bucket c cs.
Proof. destruct cs, c, c'; reflexivity. Qed.

(** What [keptFiles] keeps. *)
Lemma keptFiles_spec (cfg : Config) (files kept : list string) :
  keptFiles cfg files = Ok kept ->
  forall f, In f kept <-> In f files /\ isExcluded cfg f = Ok false.
Proof.
  unfold keptFiles. revert kept.
  induction files as [|x files IH]; simpl; intros kept H f.
  - injection H as <-. simpl. tauto.
  - destruct (isExcluded cfg x) as [skip|e] eqn:Ex; simpl in H;
      [|discriminate].
    destruct (filterM _ files) as [kept'|e]; simpl in H; [|discriminate].
    injection H as <-. specialize (IH kept' eq_refl f).
    destruct skip; simpl; rewrite IH; split.
    + tauto.
    + intros [[->|Hin] Hf]; [congruence | tauto].
    + intros [->|[Hin Hf]]; [tauto | tauto].
    + tauto.
Qed.

(** Each bucket receives, in input order, the kept files of its
    category. *)
Lemma forEach_categorize (cfg : Config) (files : list string)
      (cs0 cats : FileCategories) :
  forEachM (categorizeFile cfg) files cs0 = Ok cats ->
  exists kept,
    keptFiles cfg files = Ok kept /\
    forall c, bucket c cats
              = bucket c cs0
                ++ filter (fun f => category_eqb (categoryOf f) c) kept.
Proof.
  unfold keptFiles. revert cs0.
  induction files as [|x files IH]; simpl; intros cs0 H.
  - injection H as <-. exists []. split; [reflexivity|].
    intros c. now rewrite app_nil_r.
  - unfold categorizeFile in H at 1.
    destruct (isExcluded cfg x) as [skip|e] eqn:Ex; simpl in H;
      [|discriminate].
    destruct skip; simpl in H.
    + destruct (IH _ H) as (kept & Hk & Hb).
      exists kept. simpl. rewrite Hk. simpl. split; [reflexivity|exact Hb].
    + destruct (IH _ H) as (kept & Hk & Hb).
      exists (x :: kept). simpl. rewrite Hk. simpl.
      split; [reflexivity|]. intros c. rewrite Hb, bucket_push. simpl.
      destruct (category_eqb (categoryOf x) c);
        [now rewrite <- app_assoc | reflexivity].
Qed.

Lemma bucket_empty (c : Category) : bucket c emptyCategories = [].
Proof. now destruct c. Qed.

Lemma categorizeFiles_buckets (cfg : Config) (files : list string)
      (cats : FileCategories) :
  categorizeFiles cfg files = Ok cats ->
  exists kept,
    keptFiles cfg files = Ok kept /\
    forall c, bucket c cats
              = filter (fun f => category_eqb (categoryOf f) c) kept.
Proof.
  intros H. destruct (forEach_categorize _ _ _ _ H) as (kept & Hk & Hb).
  exists kept. split; [exact Hk|]. intros c.
  now rewrite Hb, bucket_empty.
Qed.

Lemma in_bucket (cfg : Config) (files : list string)
      (cats : FileCategories) :
  categorizeFiles cfg files = Ok cats ->
  forall c f, In f (bucket c cats)
              <-> In f files /\ isExcluded cfg f = Ok false
                  /\ categoryOf f = c.
Proof.
  intros H c f.
  destruct (categorizeFiles_buckets _ _ _ H) as (kept & Hk & Hb).
  rewrite Hb, filter_In, (keptFiles_spec _ _ _ Hk), category_eqb_eq.
  tauto.
Qed.

Lemma partition_by_category {A : Type} (cat : A -> Category)
      (xs : list A) :
  Permutation
    (flat_map (fun c => filter (fun x => category_eqb (cat x) c) xs)
              allCategories)
    xs.
Proof.
  induction xs as [|x xs IH]; [reflexivity|].
  apply Permutation_trans with
    (x :: flat_map (fun c => filter (fun y => category_eqb (cat y) c) xs)
                   allCategories);
    [|now apply perm_skip].
  clear IH. unfold allCategories. cbn [flat_map filter].
  destruct (cat x); cbn [category_eqb categoryKey String.eqb Ascii.eqb
                         Bool.eqb andb];
    rewrite ?app_nil_r;
    repeat rewrite <- app_comm_cons;
    repeat first [ reflexivity
                 | apply Permutation_sym, Permutation_middle
                 | rewrite app_assoc ].
Qed.

End Categorizer.

(** ** Exclusion patterns that are RegExp objects *)

Section RegexPatterns.

Variable cfg : Config.
Variable res : list regex.
Hypothesis patterns_are_regex : regexPatterns cfg res.

Lemma isExcluded_regex (file : string) :
  isExcluded cfg file = Ok (matchesAny res file).
Proof.
  unfold isExcluded. rewrite patterns_are_regex. clear patterns_are_regex.
  induction res as [|r rs IH]; simpl; [reflexivity|].
  destruct (test r file); [reflexivity | exact IH].
Qed.

(** No call can throw: [main] keeps the files no pattern matches. *)
Lemma keptFiles_regex (files : list string) :
  keptFiles cfg files
  = Ok (filter (fun f => negb (matchesAny res f)) files).
Proof.
  unfold keptFiles.
  induction files as [|x files IH]; simpl; [reflexivity|].
  rewrite isExcluded_regex, IH. simpl.
  now destruct (matchesAny res x).
Qed.

Lemma forEach_categorize_regex (files : list string)
      (cs0 : FileCategories) :
  exists cats, forEachM (categorizeFile cfg) files cs0 = Ok cats.
Proof.
  revert cs0.
  induction files as [|x files IH]; simpl; intros cs0; [now eexists|].
  unfold categorizeFile at 1. rewrite isExcluded_regex. simpl.
  destruct (matchesAny res x); apply IH.
Qed.

(** Inside a repository [main] gets as far as the write: it returns a
    summary when the write succeeds, and throws what the write
    throws. *)
Lemma main_total_on_regex (w : World) (subjects names numstat : string) :
  inRepo w = true ->
  (writeFileSync w (cliOutputFile cfg (args w)) = Ok tt ->
   exists s, main w cfg subjects names numstat = Ok s) /\
  (forall e, writeFileSync w (cliOutputFile cfg (args w)) = Err e ->
             main w cfg subjects names numstat = Err e).
Proof.
  intros Hw. unfold main, checkGitRepo. rewrite Hw, keptFiles_regex.
  cbn [bind].
  destruct (forEach_categorize_regex
              (filter (fun f => negb (matchesAny res f))
                 (removeDuplicates
                    (filter Js.truthy (Js.split Js.newline names))))
              emptyCategories) as (cats & Hc).
  unfold categorizeFiles. rewrite Hc. cbn [bind].
  split.
  - intros ->. cbn [bind]. now eexists.
  - intros e ->. reflexivity.
Qed.

(** C5. With exclusion patterns that are RegExp objects the categorizer
    returns its ten buckets, every non-excluded input file is in
    exactly one of them, nothing else is in any, and the buckets taken
    together are the non-excluded input, file for file. *)
Theorem categorize_partition (files : list string) :
  exists cats,
    categorizeFiles cfg files = Ok cats /\
    (forall f, In f files -> matchesAny res f = false ->
               exists! c, In f (bucket c cats)) /\
    (forall c f, In f (bucket c cats) ->
                 In f files /\ matchesAny res f = false) /\
    Permutation (flat_map (fun c => bucket c cats) allCategories)
                (filter (fun f => negb (matchesAny res f)) files).
Proof.
  destruct (forEach_categorize_regex files emptyCategories) as (cats & Hc).
  exists cats. split; [exact Hc|].
  pose proof (in_bucket _ _ _ Hc) as Hin.
  assert (forall f, isExcluded cfg f = Ok false
                    <-> matchesAny res f = false) as Hex.
  { intros f. rewrite isExcluded_regex.
    split; [now intros [= ->] | now intros ->]. }
  split; [|split].
  - intros f Hf Hm. exists (categoryOf f). split.
    + apply Hin. rewrite Hex. auto.
    + intros c Hc'. apply Hin in Hc'. tauto.
  - intros c f Hf. apply Hin in Hf. rewrite <- Hex. tauto.
  - destruct (categorizeFiles_buckets _ _ _ Hc) as (kept & Hk & Hb).
    rewrite keptFiles_regex in Hk. injection Hk as <-.
    erewrite flat_map_ext; [apply partition_by_category|].
    intros c. apply Hb.
Qed.

End RegexPatterns.

Lemma categorize_partition_witness :
  exists cats,
    categorizeFiles defaultConfig
      ["node_modules/x.js"; "README.md"; "src/hooks/useAuth.ts"]
    = Ok cats /\
    docs cats = ["README.md"] /\ hooks cats = ["src/hooks/useAuth.ts"] /\
    Permutation (flat_map (fun c => bucket c cats) allCategories)
                ["README.md"; "src/hooks/useAuth.ts"].
Proof.
  destruct (categorize_partition defaultConfig defaultExcludePatterns
              eq_refl
              ["node_modules/x.js"; "README.md"; "src/hooks/useAuth.ts"])
    as (cats & Hc & _ & _ & Hp).
  exists cats. split; [exact Hc|].
  vm_compute in Hc. injection Hc as <-.
  split; [reflexivity|]. split; [reflexivity|]. exact Hp.
Defined.

(** The default patterns, read off their regular expressions: a fixed
    set of leading directories, [*.log], [.env*], and three exact
    names. *)
Lemma default_patterns (file : string) :
  isExcluded defaultConfig file
  = Ok (existsb (fun dir => String.prefix dir file)
                [".windsurf/"; ".cursor/"; ".vscode/"; ".idea/";
                 "node_modules/"; ".next/"; "dist/"; "build/"; "coverage/"]
        || Js.endsWith ".log" file
        || String.prefix ".env" file
        || existsb (fun name => String.eqb name file)
                   [".gitignore"; "package-lock.json"; "yarn.lock"]).
Proof.
  rewrite (isExcluded_regex defaultConfig defaultExcludePatterns eq_refl).
  f_equal. unfold matchesAny, defaultExcludePatterns. cbn [existsb].
  rewrite !test_prefix, !test_whole, test_suffix by reflexivity.
  cbn [words existsb]. rewrite !orb_false_r.
  repeat rewrite <- orb_assoc. reflexivity.
Qed.

Section CategorizerClaims.

Lemma firstMatch_none {A : Type} (rules : list (bool * A)) (dflt : A) :
  noRuleMatches rules = true -> firstMatch rules dflt = dflt.
Proof.
  induction rules as [|[cond outcome] rules IH]; simpl; [reflexivity|].
  destruct cond; simpl; [discriminate | exact IH].
Qed.

Lemma firstMatch_app_none {A : Type} (r1 r2 : list (bool * A)) (dflt : A) :
  noRuleMatches r1 = true ->
  firstMatch (r1 ++ r2) dflt = firstMatch r2 dflt.
Proof.
  induction r1 as [|[cond outcome] r1 IH]; simpl; [reflexivity|].
  destruct cond; simpl; [discriminate | exact IH].
Qed.

Lemma firstMatch_app_some {A : Type} (r1 r2 : list (bool * A))
      (dflt dflt' : A) :
  noRuleMatches r1 = false ->
  firstMatch (r1 ++ r2) dflt = firstMatch r1 dflt'.
Proof.
  induction r1 as [|[cond outcome] r1 IH]; simpl; [discriminate|].
  destruct cond; simpl; [reflexivity | exact IH].
Qed.

(** C6 (amended). The categorizer is first-match-wins over the rules in
    the order components, hooks, utils, types, styles, tests, scripts,
    docs, config, with [other] when none matches.  A file in a
    components, hooks, utils or types directory is placed by the first
    of those four rules that matches, whatever its extension; the
    scripts rule comes after the styles and tests rules and prevails
    over docs and config only. *)
Theorem categorize_first_match (file : string) :
  categoryOf file = firstMatch (categoryRules file) Other /\
  (noRuleMatches (directoryRules file) = false ->
   categoryOf file = firstMatch (directoryRules file) Other /\
   In (categoryOf file) [Components; Hooks; Utils; Types]) /\
  (inDirectory "scripts" file = true ->
   categoryOf file <> Docs /\ categoryOf file <> ConfigFiles /\
   categoryOf file <> Other) /\
  (noRuleMatches (categoryRules file) = true -> categoryOf file = Other).
Proof.
  split; [apply categoryOf_rules|]. rewrite categoryOf_rules.
  split; [|split].
  - intros H. unfold categoryRules.
    rewrite (firstMatch_app_some _ _ Other Other H).
    split; [reflexivity|]. revert H. unfold directoryRules, noRuleMatches.
    cbn [firstMatch forallb fst].
    destruct (inDirectory "components" file); [simpl; auto|].
    destruct (inDirectory "hooks" file); [simpl; auto|].
    destruct (inDirectory "utils" file); [simpl; auto|].
    destruct (inDirectory "types" file); [simpl; auto|].
    discriminate.
  - intros H. unfold categoryRules, directoryRules.
    cbn [firstMatch app]. rewrite H.
    destruct (inDirectory "components" file); [repeat split; discriminate|].
    destruct (inDirectory "hooks" file); [repeat split; discriminate|].
    destruct (inDirectory "utils" file); [repeat split; discriminate|].
    destruct (inDirectory "types" file); [repeat split; discriminate|].
    destruct (hasExtension _ file); [repeat split; discriminate|].
    destruct (isTestFile file); repeat split; discriminate.
  - apply firstMatch_none.
Qed.

Lemma categorize_first_match_witness :
  categoryOf "src/components/Button.css" = Components /\
  categoryOf "scripts/release-notes.md" = Scripts /\
  categoryOf "Makefile" = Other.
Proof.
  destruct (categorize_first_match "src/components/Button.css")
    as (_ & Hdir & _ & _).
  destruct (categorize_first_match "scripts/release-notes.md")
    as (Hfirst & _ & _ & _).
  destruct (categorize_first_match "Makefile") as (_ & _ & _ & Hother).
  split; [|split].
  - destruct (Hdir eq_refl) as [-> _]. reflexivity.
  - rewrite Hfirst. reflexivity.
  - apply Hother. reflexivity.
Defined.

(** C6 as stated fails: [scripts/theme.css] matches the scripts
    directory rule and the styles extension rule, and is placed by the
    extension rule. *)
Lemma scripts_directory_yields_to_extension :
  inDirectory "scripts" "scripts/theme.css" = true /\
  hasExtension ["scss"; "css"; "less"; "sass"] "scripts/theme.css" = true /\
  categoryOf "scripts/theme.css" = Styles /\
  categoryOf "scripts/theme.css" <> Scripts.
Proof. repeat split; try reflexivity. discriminate. Qed.

Lemma endsWith_lastChar (w s : string) :
  Js.endsWith w s = true -> w <> "" -> lastChar s = lastChar w.
Proof.
  intros H Hw. induction s as [|c s IH].
  - simpl in H. rewrite orb_false_r in H.
    apply String.eqb_eq in H. congruence.
  - cbn [Js.endsWith] in H. apply orb_true_iff in H as [H|H].
    + apply String.eqb_eq in H. now subst.
    + specialize (IH H). destruct s as [|d s]; [|exact IH].
      simpl in H. rewrite orb_false_r in H.
      apply String.eqb_eq in H. congruence.
Qed.

Lemma md_is_not_config (file : string) :
  Js.endsWith ".md" file = true -> isConfig file = false.
Proof.
  intros H. apply endsWith_lastChar in H; [|discriminate].
  unfold isConfig, hasExtension. cbn [existsb append].
  repeat match goal with
         | |- context [Js.endsWith ?w file] =>
             let E := fresh "E" in
             destruct (Js.endsWith w file) eqn:E;
             [apply endsWith_lastChar in E; [|discriminate];
              rewrite H in E; discriminate E|]
         end.
  reflexivity.
Qed.

(** C10. A non-excluded path that ends in [.md], matches none of the
    rules before the docs rule and contains [node_modules] is placed in
    [other] and not in [docs]. *)
Theorem md_under_node_modules (cfg : Config) (files : list string)
        (cats : FileCategories) (file : string) :
  categorizeFiles cfg files = Ok cats ->
  In file files ->
  isExcluded cfg file = Ok false ->
  Js.endsWith ".md" file = true ->
  noRuleMatches (rulesBeforeDocs file) = true ->
  Js.includes "node_modules" file = true ->
  categoryOf file = Other /\
  In file (other cats) /\ ~ In file (docs cats).
Proof.
  intros Hc Hin Hex Hmd Hnone Hnm.
  assert (categoryOf file = Other) as Hcat.
  { rewrite categoryOf_rules.
    change (categoryRules file)
      with (rulesBeforeDocs file
            ++ [(isDoc file, Docs); (isConfig file, ConfigFiles)]).
    rewrite (firstMatch_app_none _ _ _ Hnone).
    unfold isDoc. rewrite Hmd, Hnm, (md_is_not_config _ Hmd).
    reflexivity. }
  split; [exact Hcat|].
  pose proof (in_bucket _ _ _ Hc) as Hb. split.
  - apply (Hb Other). auto.
  - intros Hd. apply (Hb Docs) in Hd. destruct Hd as (_ & _ & Hd).
    congruence.
Qed.

Lemma md_under_node_modules_witness :
  exists cats,
    categorizeFiles defaultConfig
      ["README.md"; "packages/app/node_modules/lib/README.md"] = Ok cats /\
    In "packages/app/node_modules/lib/README.md" (other cats) /\
    ~ In "packages/app/node_modules/lib/README.md" (docs cats).
Proof.
  eexists. split; [reflexivity|].
  refine (proj2 (md_under_node_modules defaultConfig
            ["README.md"; "packages/app/node_modules/lib/README.md"]
            _ "packages/app/node_modules/lib/README.md"
            eq_refl _ eq_refl eq_refl eq_refl eq_refl)).
  simpl. auto.
Defined.

End CategorizerClaims.

(** ** Renderers *)

Section Renderers.

Lemma concat_cons (x : string) (xs : list string) :
  String.concat "" (x :: xs) = (x ++ String.concat "" xs)%string.
Proof. destruct xs; simpl; [now rewrite append_nil_r | reflexivity]. Qed.

Lemma concat_app (xs ys : list string) :
  String.concat "" (xs ++ ys)
  = (String.concat "" xs ++ String.concat "" ys)%string.
Proof.
  induction xs as [|x xs IH]; [reflexivity|].
  rewrite <- app_comm_cons, !concat_cons, IH. now rewrite append_assoc.
Qed.

Lemma renderPieces_app (text : Piece -> string) (ps qs : list Piece) :
  renderPieces text (ps ++ qs)
  = (renderPieces text ps ++ renderPieces text qs)%string.
Proof. unfold renderPieces. now rewrite map_app, concat_app. Qed.

Lemma renderPieces_cons (text : Piece -> string) (p : Piece)
      (ps : list Piece) :
  renderPieces text (p :: ps) = (text p ++ renderPieces text ps)%string.
Proof. unfold renderPieces. simpl map. apply concat_cons. Qed.

Lemma fold_changesFile (files : list string) (section : string) :
  fold_left changesFile files section
  = (section ++ renderPieces changesText (map Item files))%string.
Proof.
  revert section. induction files as [|f files IH]; intros section.
  - simpl. now rewrite append_nil_r.
  - simpl fold_left. rewrite IH. simpl map. rewrite renderPieces_cons.
    unfold changesFile. cbn [changesText].
    rewrite !append_assoc. reflexivity.
Qed.

Lemma fold_fileListFile (files : list string) (lst : string) :
  fold_left fileListFile files lst
  = (lst ++ renderPieces fileListText (map Item files))%string.
Proof.
  revert lst. induction files as [|f files IH]; intros lst.
  - simpl. now rewrite append_nil_r.
  - simpl fold_left. rewrite IH. simpl map. rewrite renderPieces_cons.
    unfold fileListFile. cbn [fileListText].
    rewrite !append_assoc. reflexivity.
Qed.

Lemma renderPieces_nil (text : Piece -> string) : renderPieces text [] = "".
Proof. reflexivity. Qed.

Lemma blockPieces_nonempty (limit : nat) (closing : bool) (key : string)
      (files : list string) :
  (0 <? List.length files)%nat = true ->
  blockPieces limit closing (key, files)
  = Heading key (List.length files)
    :: map Item (firstn limit files)
    ++ (if (limit <? List.length files)%nat
        then [More (List.length files - limit)] else [])
    ++ (if closing then [BlankLine] else []).
Proof. destruct files; [discriminate | reflexivity]. Qed.

Lemma blockPieces_empty (limit : nat) (closing : bool) (key : string)
      (files : list string) :
  (0 <? List.length files)%nat = false ->
  blockPieces limit closing (key, files) = [].
Proof. destruct files; [reflexivity | discriminate]. Qed.

Ltac flatten_pieces :=
  repeat first [ rewrite renderPieces_app
               | rewrite renderPieces_cons
               | rewrite renderPieces_nil ];
  cbn [changesText fileListText];
  rewrite ?append_assoc, ?append_nil_r;
  reflexivity.

Lemma changesEntry_pieces (section : string) (entry : string * list string) :
  changesEntry section entry
  = (section ++ renderPieces changesText (blockPieces 5 false entry))%string.
Proof.
  destruct entry as [key files]. unfold changesEntry.
  destruct (0 <? List.length files)%nat eqn:E.
  - rewrite (blockPieces_nonempty _ _ _ _ E), fold_changesFile.
    unfold slice0. destruct (5 <? List.length files)%nat; flatten_pieces.
  - rewrite (blockPieces_empty _ _ _ _ E). flatten_pieces.
Qed.

Lemma fileListEntry_pieces (lst : string) (entry : string * list string) :
  fileListEntry lst entry
  = (lst ++ renderPieces fileListText (blockPieces 10 true entry))%string.
Proof.
  destruct entry as [key files]. unfold fileListEntry.
  destruct (0 <? List.length files)%nat eqn:E.
  - rewrite (blockPieces_nonempty _ _ _ _ E), fold_fileListFile.
    unfold slice0. destruct (10 <? List.length files)%nat; flatten_pieces.
  - rewrite (blockPieces_empty _ _ _ _ E). flatten_pieces.
Qed.

Lemma fold_changesEntry (es : list (string * list string))
      (section : string) :
  fold_left changesEntry es section
  = (section
     ++ renderPieces changesText (flat_map (blockPieces 5 false) es))%string.
Proof.
  revert section. induction es as [|e es IH]; intros section.
  - simpl. now rewrite append_nil_r.
  - simpl fold_left. rewrite IH, changesEntry_pieces.
    simpl flat_map. now rewrite renderPieces_app, append_assoc.
Qed.

Lemma fold_fileListEntry (es : list (string * list string)) (lst : string) :
  fold_left fileListEntry es lst
  = (lst
     ++ renderPieces fileListText (flat_map (blockPieces 10 true) es))%string.
Proof.
  revert lst. induction es as [|e es IH]; intros lst.
  - simpl. now rewrite append_nil_r.
  - simpl fold_left. rewrite IH, fileListEntry_pieces.
    simpl flat_map. now rewrite renderPieces_app, append_assoc.
Qed.

Lemma generateChangesSection_pieces (cats : FileCategories) :
  generateChangesSection cats
  = let body :=
      renderPieces changesText
                   (flat_map (blockPieces 5 false) (entries cats)) in
    if Js.truthy body then body
    else "<!-- TODO: Describe your changes -->".
Proof. unfold generateChangesSection. now rewrite fold_changesEntry. Qed.

Lemma generateFileList_pieces (cats : FileCategories) :
  generateFileList cats
  = let body :=
      renderPieces fileListText
                   (flat_map (blockPieces 10 true) (entries cats)) in
    if Js.truthy body then body else "- No files modified".
Proof. unfold generateFileList. now rewrite fold_fileListEntry. Qed.

Lemma filter_isItem_items (files : list string) :
  filter isItem (map Item files) = map Item files.
Proof. induction files; simpl; [reflexivity | now f_equal]. Qed.

Lemma blockPieces_items (limit : nat) (closing : bool) (key : string)
      (files : list string) :
  filter isItem (blockPieces limit closing (key, files))
  = map Item (firstn limit files).
Proof.
  unfold blockPieces. destruct files as [|f files].
  - now rewrite firstn_nil.
  - set (fs := f :: files). cbn [filter isItem].
    rewrite !filter_app, filter_isItem_items.
    destruct (limit <? List.length fs)%nat, closing; simpl;
      now rewrite app_nil_r.
Qed.

Lemma blockPieces_more (limit : nat) (closing : bool) (key : string)
      (files : list string) (n : nat) :
  In (More n) (blockPieces limit closing (key, files))
  <-> limit < List.length files /\ n = List.length files - limit.
Proof.
  unfold blockPieces. destruct files as [|f files].
  - simpl. lia.
  - set (fs := f :: files). cbn [In]. rewrite !in_app_iff, in_map_iff.
    destruct (Nat.ltb_spec limit (List.length fs)); split.
    + intros [E|[(x & E & _)|[[E|[]]|Hc]]]; try discriminate.
      * injection E as <-. auto.
      * destruct closing; [destruct Hc as [E|[]]; discriminate | destruct Hc].
    + intros [_ ->]. right. right. left. now left.
    + intros [E|[(x & E & _)|[[]|Hc]]]; try discriminate.
      destruct closing; [destruct Hc as [E|[]]; discriminate | destruct Hc].
    + lia.
Qed.

(** C8. Both renderers walk the categories in the key order components,
    hooks, utils, types, styles, tests, docs, config, scripts, other.
    For each non-empty category the changes breakdown prints a heading,
    the first 5 files and, when more than 5, a note with the number of
    files left; the file listing does the same with 10 files and ends
    the block with a blank line. *)
Theorem sections_structure (cats : FileCategories) :
  map fst (entries cats) = categoryOrder /\
  map snd (entries cats) = map (fun c => bucket c cats) allCategories /\
  map fst (entries cats) = map categoryKey allCategories /\
  generateChangesSection cats
  = (let body :=
       renderPieces changesText
                    (flat_map (blockPieces 5 false) (entries cats)) in
     if Js.truthy body then body
     else "<!-- TODO: Describe your changes -->") /\
  generateFileList cats
  = (let body :=
       renderPieces fileListText
                    (flat_map (blockPieces 10 true) (entries cats)) in
     if Js.truthy body then body else "- No files modified") /\
  forall limit closing key files,
    let block := blockPieces limit closing (key, files) in
    filter isItem block = map Item (firstn limit files) /\
    List.length (filter isItem block) <= limit /\
    (forall n, In (More n) block
               <-> limit < List.length files
                   /\ n = List.length files - limit).
Proof.
  split; [reflexivity|]. split; [reflexivity|]. split; [reflexivity|].
  split; [apply generateChangesSection_pieces|].
  split; [apply generateFileList_pieces|].
  intros limit closing key files block. subst block.
  rewrite blockPieces_items. split; [reflexivity|]. split.
  - rewrite length_map. apply firstn_le_length.
  - intros n. apply blockPieces_more.
Qed.

End Renderers.

(** ** Type classifier *)

Section Classifier.

Lemma prefix_append (k a b : string) :
  String.prefix k a = true -> String.prefix k (a ++ b) = true.
Proof.
  revert a. induction k as [|x k IH]; intros a H;
    [now destruct (a ++ b)%string|].
  destruct a as [|y a]; [discriminate|]. simpl in *.
  destruct (ascii_dec x y); [now apply IH | discriminate].
Qed.

Lemma includes_append_l (k a b : string) :
  Js.includes k a = true -> Js.includes k (a ++ b) = true.
Proof.
  induction a as [|y a IH]; intros H.
  - simpl in H. rewrite orb_false_r in H.
    destruct k; [|discriminate]. now destruct b.
  - cbn [Js.includes] in H. apply orb_true_iff in H as [H|H].
    + change (String y a ++ b)%string with (String y (a ++ b)).
      cbn [Js.includes].
      change (String y (a ++ b)) with (String y a ++ b)%string.
      now rewrite (prefix_append _ _ _ H).
    + change (String y a ++ b)%string with (String y (a ++ b)).
      cbn [Js.includes]. rewrite (IH H). apply orb_true_r.
Qed.

Lemma includes_append_r (k a b : string) :
  Js.includes k b = true -> Js.includes k (a ++ b) = true.
Proof.
  intros H. induction a as [|y a IH]; [exact H|].
  change (String y a ++ b)%string with (String y (a ++ b)).
  cbn [Js.includes]. rewrite IH. apply orb_true_r.
Qed.

Lemma includes_join (k sep c : string) (l : list string) :
  In c l -> Js.includes k c = true -> Js.includes k (Js.join sep l) = true.
Proof.
  unfold Js.join. intros Hin Hk.
  induction l as [|x l IH]; [destruct Hin|].
  destruct l as [|y l].
  - destruct Hin as [->|[]]. exact Hk.
  - change (String.concat sep (x :: y :: l))
      with (x ++ sep ++ String.concat sep (y :: l))%string.
    destruct Hin as [->|Hin].
    + now apply includes_append_l.
    + apply includes_append_r, includes_append_r. now apply IH.
Qed.

Lemma toLowerCase_append (a b : string) :
  Js.toLowerCase (a ++ b)
  = (Js.toLowerCase a ++ Js.toLowerCase b)%string.
Proof. induction a as [|x a IH]; simpl; [reflexivity | now rewrite IH]. Qed.

Lemma toLowerCase_join (sep : string) (l : list string) :
  Js.toLowerCase (Js.join sep l)
  = Js.join (Js.toLowerCase sep) (map Js.toLowerCase l).
Proof.
  unfold Js.join. induction l as [|x l IH]; [reflexivity|].
  destruct l as [|y l]; [reflexivity|].
  change (String.concat sep (x :: y :: l))
    with (x ++ sep ++ String.concat sep (y :: l))%string.
  rewrite !toLowerCase_append, IH. reflexivity.
Qed.

(** A keyword that occurs in a commit subject, in any letter case,
    occurs in the commit text. *)
Lemma keyword_in_commitText (k c : string) (commits : list string) :
  In c commits -> Js.includes k (Js.toLowerCase c) = true ->
  Js.includes k (Js.toLowerCase (Js.join " " commits)) = true.
Proof.
  intros Hin Hk. rewrite toLowerCase_join.
  apply includes_join with (c := Js.toLowerCase c); [|exact Hk].
  now apply in_map.
Qed.

Lemma detectPRType_rules (commits files : list string) :
  type (detectPRType commits files)
  = firstMatch
      (classifierRules (Js.toLowerCase (Js.join " " commits))
                       (Js.toLowerCase (Js.join " " files)))
      Chore.
Proof.
  unfold detectPRType, classifierRules, containsAny.
  cbn [firstMatch existsb]. rewrite !orb_false_r, !orb_assoc.
  repeat match goal with
         | |- context [if ?c then mkPRType _ _ else _] =>
             destruct c; [reflexivity|]
         end.
  reflexivity.
Qed.

(** C4. The classifier returns the label of the first rule that holds,
    in the order Fix, Feature, Refactor, Docs, Test, Performance, with
    Chore when none does, over the lower-cased commit text and file
    text.  A commit list with a fix keyword in some subject yields Fix
    whatever else it contains, [feat] included; empty inputs yield
    Chore. *)
Theorem classifier_first_match (commits files : list string) :
  type (detectPRType commits files)
  = firstMatch
      (classifierRules (Js.toLowerCase (Js.join " " commits))
                       (Js.toLowerCase (Js.join " " files)))
      Chore /\
  (forall c k, In c commits -> In k ["fix"; "bug"; "resolve"] ->
               Js.includes k (Js.toLowerCase c) = true ->
               type (detectPRType commits files) = Fix) /\
  type (detectPRType [] []) = Chore.
Proof.
  split; [apply detectPRType_rules|]. split; [|reflexivity].
  intros c k Hc Hk Hinc. rewrite detectPRType_rules.
  unfold classifierRules. cbn [firstMatch].
  assert (containsAny ["fix"; "bug"; "resolve"]
            (Js.toLowerCase (Js.join " " commits)) = true) as ->;
    [|reflexivity].
  unfold containsAny. apply existsb_exists. exists k.
  split; [exact Hk|]. now apply keyword_in_commitText with (c := c).
Qed.

Lemma classifier_first_match_witness :
  type (detectPRType ["feat: add login"; "Fix the feature flag"]
                     ["README.md"]) = Fix.
Proof.
  destruct (classifier_first_match
              ["feat: add login"; "Fix the feature flag"] ["README.md"])
    as (_ & Hfix & _).
  apply (Hfix "Fix the feature flag" "fix"); simpl; auto.
Defined.

End Classifier.

(** ** Suggestion engine *)

Section Suggestions.

Lemma nonEmpty_isNil {A : Type} (xs : list A) :
  nonEmpty xs = negb (isNil xs).
Proof. now destruct xs. Qed.

Lemma length_zero_isNil {A : Type} (xs : list A) :
  (List.length xs =? 0)%nat = isNil xs.
Proof. now destruct xs. Qed.

Lemma not_docs (l : PRLabel) :
  negb (label_eqb l DocsType)
  = match l with DocsType => false | _ => true end.
Proof. now destruct l. Qed.

(** C7. The suggestions are the messages of the rules that hold, in the
    rule order components, hooks, utils, no-tests, types, styles: two
    messages for components, one for hooks, one for utils, one warning
    when no test file changed and the type is not Docs, one for types,
    two for styles. *)
Theorem suggestions_in_rule_order (categories : FileCategories)
        (prType : PRType) :
  generateSuggestions categories prType
  = firedMessages (suggestionRules categories (type prType)).
Proof.
  unfold generateSuggestions, suggestionRules, firedMessages.
  rewrite !nonEmpty_isNil, length_zero_isNil, not_docs.
  cbn [flat_map fst snd].
  destruct (isNil (components categories)),
           (isNil (hooks categories)),
           (isNil (utils categories)),
           (isNil (tests categories)),
           (isNil (types categories)),
           (isNil (styles categories));
    destruct (type prType); reflexivity.
Qed.

End Suggestions.

(** ** Exclusion and the data flow of [main] *)

Section Pipeline.






(** The fields of the summary [main] returns. *)
Lemma main_fields (w : World) (cfg : Config)
      (subjects names numstat : string) (s : Summary) :
  main w cfg subjects names numstat = Ok s ->
  keptFiles cfg
    (removeDuplicates (filter Js.truthy (Js.split Js.newline names)))
  = Ok (sumFiles s) /\
  categorizeFiles cfg (sumFiles s) = Ok (sumCategories s) /\
  sumChanges s = generateChangesSection (sumCategories s) /\
  sumFileList s = generateFileList (sumCategories s) /\
  sumPromptFiles s = promptFileList (sumFiles s) /\
  sumAnalysis s = analyzeComplexity numstat.
Proof.
  unfold main.
  destruct (checkGitRepo w) as [inside|e]; cbn [bind]; [|discriminate].
  destruct (keptFiles cfg _) as [files|e]; cbn [bind]; [|discriminate].
  destruct (categorizeFiles cfg files) as [cats|e] eqn:Ec; cbn [bind];
    [|discriminate].
  destruct (writeFileSync w _) as [written|e]; cbn [bind]; [|discriminate].
  intros [= <-]. simpl. rewrite Ec. repeat split; reflexivity.
Qed.




(** C9 fails on the code: with the configuration file of the README,
    whose exclusion patterns are JSON strings, the first call of
    [pattern.test] throws, in the categorizer and already in [main],
    in every run inside a repository. *)
Lemma categorizer_throws_on_configured_patterns :
  let userConfig :=
    JObject [ ("baseBranch", JString "main");
              ("outputFile", JString "PR_SUMMARY.md");
              ("excludePatterns",
               JArray [ JString "^\.vscode/"; JString "^\.idea/";
                        JString "^node_modules/"; JString "^\.env" ]) ] in
  let cfg := loadConfig [Some userConfig] in
  categorizeFiles cfg ["src/index.js"]
  = Err (TypeError "pattern.test is not a function") /\
  (forall w, inRepo w = true ->
             main w cfg "fix: typo" "src/index.js" ""
             = Err (TypeError "pattern.test is not a function")).
Proof.
  split; [reflexivity|].
  intros w Hw. unfold main, checkGitRepo. rewrite Hw. reflexivity.
Qed.

End Pipeline.

(** ** Scenarios *)

Section Scenarios.

Example scenario_fix_in_hooks :
  let commits := ["fix: resolve redirect loop"] in
  let files := ["src/hooks/useAuth.ts"] in
  type (detectPRType commits files) = Fix /\
  exists cats,
    categorizeFiles defaultConfig files = Ok cats /\
    hooks cats = ["src/hooks/useAuth.ts"] /\
    generateSuggestions cats (detectPRType commits files)
    = [msgHooks; msgNoTests].
Proof.
  cbv zeta. split; [reflexivity|].
  eexists. split; [reflexivity|]. split; reflexivity.
Qed.

Example scenario_small_change :
  let a := analyzeComplexity (numstatReport [Counted 50 10 "a.js"]) in
  complexity a = Low /\ risk a = Low /\
  (totalAdded a + totalRemoved a = 60)%Z.
Proof. repeat split. Qed.

Example scenario_four_large_files :
  let a :=
    analyzeComplexity
      (numstatReport [ Counted 300 300 "a.js"; Counted 300 300 "b.js";
                       Counted 300 300 "c.js"; Counted 300 300 "d.js" ]) in
  complexity a = High /\ risk a = High /\
  (totalAdded a + totalRemoved a = 2400)%Z /\ fileCount a = 4.
Proof. repeat split. Qed.

Example scenario_default_exclusions :
  categorizeFiles defaultConfig ["node_modules/x.js"; "README.md"]
  = Ok (push Docs "README.md" emptyCategories).
Proof. reflexivity. Qed.

Example scenario_binary_file :
  let a :=
    analyzeComplexity
      (numstatReport [ Counted 12 3 "a.js"; Uncounted (binaryLine "logo.png") ]) in
  totalAdded a = 12%Z /\ totalRemoved a = 3%Z /\ fileCount a = 2.
Proof. repeat split. Qed.

Example scenario_truncated_listing :
  let cats :=
    mkCategories [] [] [] [] [] [] [] [] []
                 ["a"; "b"; "c"; "d"; "e"; "f"; "g"] in
  flat_map (blockPieces 5 false) (entries cats)
  = [ Heading "other" 7; Item "a"; Item "b"; Item "c"; Item "d";
      Item "e"; More 2 ].
Proof. reflexivity. Qed.

End Scenarios.

(** * Further properties *)

(** ** Analyzer: what the tiers and totals never depend on *)

Section AnalyzerMore.

Local Open Scope Z_scope.

Lemma report_high_risk (c : Counters) (n : nat) :
  risk (report c n) = High -> complexity (report c n) = High.
Proof.
  unfold report, riskOf, complexityOf.
  cbn [risk complexity]. case_thresholds; cbn -[Z.mul];
    intros; try discriminate; try reflexivity; lia.
Qed.

Lemma report_low_complexity (c : Counters) (n : nat) :
  complexity (report c n) = Low ->
  risk (report c n) = Low
  \/ (risk (report c n) = Medium /\ cRemoved c > 2 * cAdded c).
Proof.
  unfold report, riskOf, complexityOf.
  cbn [risk complexity]. case_thresholds; cbn -[Z.mul];
    intros; try discriminate; auto; try lia.
  right. split; [reflexivity | lia].
Qed.

(** X1. For every numstat text: a High risk comes with a High
    complexity, and under a Low complexity the risk is Low, or Medium by
    the removal rule alone. *)
Theorem risk_bounded_by_complexity (stats : string) :
  let a := analyzeComplexity stats in
  (risk a = High -> complexity a = High) /\
  (complexity a = Low ->
   risk a = Low
   \/ (risk a = Medium /\ totalRemoved a > 2 * totalAdded a)).
Proof.
  cbv zeta. unfold analyzeComplexity. split.
  - apply report_high_risk.
  - apply report_low_complexity.
Qed.

Lemma risk_bounded_by_complexity_witness :
  let a := analyzeComplexity (numstatReport [Counted 5 40 "old.js"]) in
  complexity a = Low /\ risk a = Medium /\
  totalRemoved a > 2 * totalAdded a.
Proof.
  destruct (risk_bounded_by_complexity
              (numstatReport [Counted 5 40 "old.js"])) as [_ H].
  cbv zeta in *. split; [reflexivity|].
  destruct (H eq_refl) as [HL|[HM Hr]]; [discriminate HL|].
  split; [exact HM | exact Hr].
Defined.

Lemma lines_of_join (ls : list string) :
  forallb (fun l => negb (hasChar Js.newline l)) ls = true ->
  filter Js.truthy (Js.split Js.newline (Js.join nl ls))
  = filter Js.truthy ls.
Proof.
  intros H. destruct ls as [|l ls]; [reflexivity|].
  now rewrite split_join_lines.
Qed.

Lemma sumOver_perm (f : string -> Z) (ls ls' : list string) :
  Permutation ls ls' -> sumOver f ls = sumOver f ls'.
Proof.
  induction 1 as [|x l l' _ IH|x y l|l l' l'' _ IH1 _ IH2]; simpl; lia.
Qed.

Lemma filter_perm {A : Type} (p : A -> bool) (xs ys : list A) :
  Permutation xs ys -> Permutation (filter p xs) (filter p ys).
Proof.
  induction 1 as [|x l l' _ IH|x y l|l l' l'' _ IH1 _ IH2]; simpl.
  - constructor.
  - destruct (p x); [now constructor | exact IH].
  - destruct (p x), (p y); try reflexivity. constructor.
  - now transitivity (filter p l').
Qed.

(** X2. The analysis does not depend on the order of the lines of the
    report, as long as the totals are [exact] in both orders. *)
Theorem analysis_ignores_line_order (ls ls' : list string) :
  forallb (fun l => negb (hasChar Js.newline l)) ls = true ->
  Permutation ls ls' ->
  exact (analyzeComplexity (Js.join nl ls)) = true ->
  exact (analyzeComplexity (Js.join nl ls')) = true ->
  analyzeComplexity (Js.join nl ls) = analyzeComplexity (Js.join nl ls').
Proof.
  intros H P.
  assert (forallb (fun l => negb (hasChar Js.newline l)) ls' = true) as H'.
  { rewrite forallb_forall in *. intros x Hx. apply H.
    now apply (Permutation_in _ (Permutation_sym P)). }
  unfold analyzeComplexity. rewrite (lines_of_join _ H), (lines_of_join _ H').
  pose proof (filter_perm Js.truthy _ _ P) as Pf.
  rewrite (Permutation_length Pf).
  destruct (fold_countLine_counts (filter Js.truthy ls) counters0)
    as (Ea & Er & El).
  destruct (fold_countLine_counts (filter Js.truthy ls') counters0)
    as (Ea' & Er' & El').
  rewrite (sumOver_perm lineAdded _ _ Pf) in Ea.
  rewrite (sumOver_perm lineRemoved _ _ Pf) in Er.
  rewrite (sumOver_perm lineLarge _ _ Pf) in El.
  rewrite <- Ea' in Ea. rewrite <- Er' in Er. rewrite <- El' in El.
  destruct (fold_left countLine (filter Js.truthy ls) counters0),
           (fold_left countLine (filter Js.truthy ls') counters0).
  unfold report. cbn [cAdded cRemoved cLarge cExact exact] in *.
  intros -> ->. now rewrite Ea, Er, El.
Qed.

Lemma analysis_ignores_line_order_witness :
  analyzeComplexity
    (Js.join nl [numstatLine (250%N, 3%N, "a.js"); binaryLine "logo.png"])
  = analyzeComplexity
      (Js.join nl [binaryLine "logo.png"; numstatLine (250%N, 3%N, "a.js")]).
Proof.
  apply analysis_ignores_line_order;
    [reflexivity | apply perm_swap | reflexivity | reflexivity].
Defined.

Lemma sumAdded_nonneg (rows : list Row) : 0 <= sumAdded rows.
Proof.
  induction rows as [|[a r p|l] rows IH]; simpl; lia.
Qed.

Lemma sumRemoved_nonneg (rows : list Row) : 0 <= sumRemoved rows.
Proof.
  induction rows as [|[a r p|l] rows IH]; simpl; lia.
Qed.

Lemma largeFiles_nonneg (rows : list Row) : 0 <= largeFiles rows.
Proof. unfold largeFiles. lia. Qed.

Lemma inRange_below (x y : Z) :
  0 <= x <= y -> Js.inRange y = true -> Js.inRange x = true.
Proof. unfold Js.inRange. intros H. rewrite !Z.ltb_lt. lia. Qed.

Lemma rowAdded_nonneg (r : Row) : 0 <= rowAdded r.
Proof. destruct r; simpl; lia. Qed.

Lemma rowRemoved_nonneg (r : Row) : 0 <= rowRemoved r.
Proof. destruct r; simpl; lia. Qed.

Lemma prefixesExact_below (rows : list Row) :
  forall a0 r0 a1 r1,
    0 <= a1 <= a0 -> 0 <= r1 <= r0 ->
    prefixesExact a0 r0 rows = true -> prefixesExact a1 r1 rows = true.
Proof.
  induction rows as [|r rows IH]; intros a0 r0 a1 r1 Ha Hr; [reflexivity|].
  cbn [prefixesExact]. rewrite !andb_true_iff.
  intros ((((H1 & H2) & H3) & H4) & H5).
  pose proof (rowAdded_nonneg r). pose proof (rowRemoved_nonneg r).
  repeat split; try assumption.
  - apply (inRange_below _ (a0 + rowAdded r)); [lia | exact H3].
  - apply (inRange_below _ (r0 + rowRemoved r)); [lia | exact H4].
  - apply (IH (a0 + rowAdded r) (r0 + rowRemoved r)); [lia | lia | exact H5].
Qed.

Lemma prefixesExact_app (rows more : list Row) :
  forall a0 r0,
    prefixesExact a0 r0 (rows ++ more)
    = prefixesExact a0 r0 rows
      && prefixesExact (a0 + sumAdded rows) (r0 + sumRemoved rows) more.
Proof.
  induction rows as [|r rows IH]; intros a0 r0.
  - simpl. now rewrite !Z.add_0_r.
  - change ((r :: rows) ++ more) with (r :: (rows ++ more)).
    cbn [prefixesExact]. rewrite IH.
    change (sumAdded (r :: rows)) with (rowAdded r + sumAdded rows).
    change (sumRemoved (r :: rows)) with (rowRemoved r + sumRemoved rows).
    rewrite !Z.add_assoc. now rewrite !andb_assoc.
Qed.

(** X3. When lines are appended to a report, the file count is the sum
    of those of the two parts and the complexity tier does not go down;
    when the totals of the whole report are [exact], so are those of
    the two parts, and the totals are their sums. *)
Theorem analysis_of_appended_report (rows more : list Row) :
  forallb rowOk rows = true -> forallb rowOk more = true ->
  let a := analyzeComplexity (numstatReport rows) in
  let b := analyzeComplexity (numstatReport more) in
  let ab := analyzeComplexity (numstatReport (rows ++ more)) in
  (exact ab = true ->
   exact a = true /\ exact b = true /\
   totalAdded ab = totalAdded a + totalAdded b /\
   totalRemoved ab = totalRemoved a + totalRemoved b) /\
  fileCount ab = (fileCount a + fileCount b)%nat /\
  tierLe (complexity a) (complexity ab).
Proof.
  intros Hr Hm.
  assert (forallb rowOk (rows ++ more) = true) as Hrm
      by (rewrite forallb_app, Hr, Hm; reflexivity).
  cbv zeta. rewrite !analyzeComplexity_report by assumption.
  unfold report.
  cbn [totalAdded totalRemoved fileCount complexity exact
       cAdded cRemoved cLarge cExact].
  rewrite sumAdded_app, sumRemoved_app, largeFiles_app, length_app.
  pose proof (sumAdded_nonneg rows). pose proof (sumRemoved_nonneg rows).
  pose proof (sumAdded_nonneg more). pose proof (sumRemoved_nonneg more).
  pose proof (largeFiles_nonneg more).
  split; [|split; [reflexivity | apply complexityOf_mono; lia]].
  rewrite prefixesExact_app, andb_true_iff. intros [E1 E2].
  repeat split; try assumption.
  apply (prefixesExact_below more (0 + sumAdded rows) (0 + sumRemoved rows));
    [lia | lia | exact E2].
Qed.

Lemma analysis_of_appended_report_witness :
  totalAdded
    (analyzeComplexity
       (numstatReport ([Counted 10 2 "a.js"] ++ [Counted 500 700 "b.js"])))
  = 510.
Proof.
  destruct (analysis_of_appended_report
              [Counted 10 2 "a.js"] [Counted 500 700 "b.js"]
              eq_refl eq_refl) as (H & _).
  cbv zeta in H. destruct (H eq_refl) as (_ & _ & Ha & _).
  rewrite Ha. reflexivity.
Defined.

Lemma prefixesExact_counts (rows : list Row) :
  forall rows' a0 r0,
    map rowCounts rows = map rowCounts rows' ->
    prefixesExact a0 r0 rows = prefixesExact a0 r0 rows'.
Proof.
  induction rows as [|r rows IH]; intros [|r' rows'] a0 r0 E;
    try discriminate; [reflexivity|].
  injection E as Er E. cbn [prefixesExact].
  assert (rowAdded r = rowAdded r' /\ rowRemoved r = rowRemoved r')
    as [-> ->].
  { destruct r, r'; try discriminate Er; simpl;
      [injection Er as -> ->|]; split; reflexivity. }
  now rewrite (IH rows' _ _ E).
Qed.

Lemma sums_of_counts (rows rows' : list Row) :
  map rowCounts rows = map rowCounts rows' ->
  sumAdded rows = sumAdded rows' /\ sumRemoved rows = sumRemoved rows'
  /\ largeFiles rows = largeFiles rows'.
Proof.
  revert rows'. induction rows as [|r rows IH]; intros [|r' rows'] E;
    try discriminate; [repeat split|].
  injection E as Er E. destruct (IH _ E) as (Ha & Hr & Hl).
  rewrite !largeFiles_cons. unfold rowLarge. simpl.
  destruct r, r'; try discriminate Er; try injection Er as -> ->;
    simpl; rewrite ?Ha, ?Hr, ?Hl; repeat split.
Qed.

(** X4. The analyzer never looks at the path: two reports whose lines
    carry the same counts have the same analysis, whatever the paths. *)
Theorem analysis_ignores_paths (rows rows' : list Row) :
  forallb rowOk rows = true -> forallb rowOk rows' = true ->
  map rowCounts rows = map rowCounts rows' ->
  analyzeComplexity (numstatReport rows)
  = analyzeComplexity (numstatReport rows').
Proof.
  intros H H' E. rewrite !analyzeComplexity_report by assumption.
  destruct (sums_of_counts _ _ E) as (-> & -> & ->).
  rewrite (prefixesExact_counts _ _ 0 0 E).
  f_equal. rewrite <- (length_map rowCounts rows), E. apply length_map.
Qed.

Lemma analysis_ignores_paths_witness :
  analyzeComplexity
    (numstatReport [Counted 4000 3000 "package-lock.json"])
  = analyzeComplexity (numstatReport [Counted 4000 3000 "src/index.js"]).
Proof.
  apply analysis_ignores_paths; reflexivity.
Defined.

End AnalyzerMore.

(** ** Classifier: keywords are found item by item *)

Section ClassifierMore.

Lemma prefix_before_separator (sep : ascii) (k a b : string) :
  hasChar sep k = false ->
  String.prefix k (a ++ String sep b) = String.prefix k a.
Proof.
  revert k. induction a as [|x a IH]; intros [|y k] H; try reflexivity.
  - simpl in *. apply orb_false_elim in H as [Hy _].
    destruct (ascii_dec y sep) as [->|]; [|reflexivity].
    now rewrite Ascii.eqb_refl in Hy.
  - simpl in *. apply orb_false_elim in H as [_ Hk].
    destruct (ascii_dec y x); [now apply IH | reflexivity].
Qed.

Lemma includes_across_separator (sep : ascii) (k a b : string) :
  hasChar sep k = false ->
  Js.includes k (a ++ String sep b) = Js.includes k a || Js.includes k b.
Proof.
  intros H. induction a as [|x a IH].
  - change ("" ++ String sep b)%string with (String sep b).
    cbn [Js.includes].
    rewrite <- (prefix_before_separator sep k "" b H).
    simpl append. now rewrite orb_false_r.
  - change (String x a ++ String sep b)%string
      with (String x (a ++ String sep b)).
    cbn [Js.includes]. rewrite IH.
    change (String x (a ++ String sep b))
      with (String x a ++ String sep b)%string.
    now rewrite (prefix_before_separator _ _ _ _ H), orb_assoc.
Qed.

(** A keyword without a space occurs in the joined text exactly when it
    occurs in one of the items. *)
Lemma includes_join_items (k : string) (items : list string) :
  hasChar " " k = false -> Js.truthy k = true ->
  Js.includes k (Js.join " " items) = existsb (Js.includes k) items.
Proof.
  intros H Hk. unfold Js.join.
  induction items as [|x items IH]; [now destruct k|].
  destruct items as [|y items]; [simpl; now rewrite orb_false_r|].
  change (String.concat " " (x :: y :: items))
    with (x ++ String " " (String.concat " " (y :: items)))%string.
  now rewrite (includes_across_separator _ _ _ _ H), IH.
Qed.

Lemma keyword_in_text (k : string) (items : list string) :
  hasChar " " k = false -> Js.truthy k = true ->
  Js.includes k (Js.toLowerCase (Js.join " " items))
  = existsb (fun item => Js.includes k (Js.toLowerCase item)) items.
Proof.
  intros H Hk. rewrite toLowerCase_join.
  change (Js.toLowerCase " ") with " ".
  now rewrite (includes_join_items _ _ H Hk), existsb_map.
Qed.

Lemma containsAny_text (keywords items : list string) :
  forallb (fun k => negb (hasChar " " k) && Js.truthy k) keywords = true ->
  containsAny keywords (Js.toLowerCase (Js.join " " items))
  = anyItem keywords items.
Proof.
  intros H. unfold containsAny, anyItem.
  induction keywords as [|k ks IH].
  - simpl. symmetry. apply existsb_never.
  - simpl in H. apply andb_true_iff in H as [Hk Hks].
    apply andb_true_iff in Hk as [Hs Ht]. apply negb_true_iff in Hs.
    cbn [existsb]. rewrite (IH Hks), (keyword_in_text _ _ Hs Ht).
    now rewrite <- existsb_orb.
Qed.

Lemma detectPRType_emoji (commits files : list string) :
  detectPRType commits files
  = mkPRType (type (detectPRType commits files))
             (emojiOf (type (detectPRType commits files))).
Proof.
  unfold detectPRType.
  repeat match goal with
         | |- context [if ?c then mkPRType _ _ else _] =>
             destruct c; [reflexivity|]
         end.
  reflexivity.
Qed.

(** X5. The keywords are looked up commit by commit and path by path,
    letter case ignored: joining with a space never creates or hides an
    occurrence.  The label is that of the first rule, in priority order,
    for which some commit subject (or path) contains one of its
    keywords. *)
Theorem classifier_by_item (commits files : list string) :
  type (detectPRType commits files)
  = firstMatch (itemRules commits files) Chore.
Proof.
  rewrite detectPRType_rules. unfold classifierRules, itemRules.
  now rewrite !containsAny_text by reflexivity.
Qed.

Lemma anyItem_same (keywords xs ys : list string) :
  (forall x, In x (map Js.toLowerCase xs)
             <-> In x (map Js.toLowerCase ys)) ->
  anyItem keywords xs = anyItem keywords ys.
Proof.
  intros E. unfold anyItem.
  rewrite <- (existsb_map (containsAny keywords) Js.toLowerCase xs).
  rewrite <- (existsb_map (containsAny keywords) Js.toLowerCase ys).
  apply eq_true_iff_eq. rewrite !existsb_exists.
  split; intros (x & Hx & Hk); exists x; (split; [now apply E | exact Hk]).
Qed.

(** X6. The classification depends only on which lower-cased commit
    subjects and which lower-cased paths occur: their order, their
    repetitions and their letter case do not matter. *)
Theorem classifier_ignores_order_and_case
        (commits commits' files files' : list string) :
  (forall c, In c (map Js.toLowerCase commits)
             <-> In c (map Js.toLowerCase commits')) ->
  (forall f, In f (map Js.toLowerCase files)
             <-> In f (map Js.toLowerCase files')) ->
  detectPRType commits files = detectPRType commits' files'.
Proof.
  intros Ec Ef.
  assert (type (detectPRType commits files)
          = type (detectPRType commits' files')) as E.
  { rewrite detectPRType_rules, detectPRType_rules.
    unfold classifierRules.
    rewrite !containsAny_text by reflexivity.
    now rewrite !(anyItem_same _ commits commits' Ec),
                !(anyItem_same _ files files' Ef). }
  rewrite (detectPRType_emoji commits files),
          (detectPRType_emoji commits' files'), E.
  reflexivity.
Qed.

Lemma classifier_ignores_order_and_case_witness :
  detectPRType ["Update README"; "FIX: login"; "Update README"] ["A.TS"]
  = detectPRType ["fix: login"; "update readme"] ["a.ts"; "a.ts"].
Proof.
  apply classifier_ignores_order_and_case; intros x; simpl; tauto.
Defined.

End ClassifierMore.

(** ** Categorizer: redundant tests, order, and thrown errors *)

Section CategorizerMore.

Lemma prefix_append_inv (a b s : string) :
  String.prefix (a ++ b) s = true ->
  exists rest, s = (a ++ rest)%string /\ String.prefix b rest = true.
Proof.
  revert s. induction a as [|x a IH]; intros s H.
  - now exists s.
  - destruct s as [|y s]; [discriminate|]. simpl in H.
    destruct (ascii_dec x y) as [->|]; [|discriminate].
    destruct (IH _ H) as (rest & -> & Hr). now exists rest.
Qed.

Lemma prefix_includes (k s : string) :
  String.prefix k s = true -> Js.includes k s = true.
Proof. intros H. destruct s; cbn [Js.includes]; now rewrite H. Qed.

(** A text that contains [a ++ b] contains [b]. *)
Lemma includes_longer_needle (a b s : string) :
  Js.includes (a ++ b) s = true -> Js.includes b s = true.
Proof.
  induction s as [|y s IH]; intros H; cbn [Js.includes] in H.
  - rewrite orb_false_r in H. apply prefix_append_inv in H as (r & E & Hr).
    destruct a; [|discriminate]. simpl in E. subst r.
    now apply prefix_includes.
  - apply orb_true_iff in H as [H|H].
    + apply prefix_append_inv in H as (r & E & Hr). rewrite E.
      apply includes_append_r. now apply prefix_includes.
    + cbn [Js.includes]. rewrite (IH H). apply orb_true_r.
Qed.

Lemma src_test_redundant (dir file : string) :
  inDirectory dir file = Js.includes (dir ++ "/") file.
Proof.
  unfold inDirectory.
  destruct (Js.includes (dir ++ "/") file) eqn:E; [reflexivity|].
  destruct (Js.includes ("src/" ++ dir ++ "/") file) eqn:E'; [|reflexivity].
  apply (includes_longer_needle "src/") in E'. congruence.
Qed.

(** X7. The [src/<dir>/] tests of the categorizer decide nothing: a path
    that contains [src/components/] contains [components/], and so on
    for the five directories, so the category is the same with the
    [<dir>/] tests alone. *)
Theorem src_tests_decide_nothing (file : string) :
  categoryOf file = firstMatch (shortRules file) Other.
Proof.
  rewrite categoryOf_rules.
  unfold categoryRules, directoryRules, shortRules.
  now rewrite !src_test_redundant.
Qed.

Lemma forEachM_app {A S : Type} (f : S -> A -> result S)
      (xs ys : list A) (s : S) :
  forEachM f (xs ++ ys) s = bind (forEachM f xs s) (forEachM f ys).
Proof.
  revert s. induction xs as [|x xs IH]; intros s; simpl; [reflexivity|].
  destruct (f s x) as [s'|e]; simpl; [apply IH | reflexivity].
Qed.

(** Whether the loop throws does not depend on the buckets so far. *)
Lemma forEach_categorize_any_state (cfg : Config) (ys : list string)
      (s s' b : FileCategories) :
  forEachM (categorizeFile cfg) ys s = Ok b ->
  exists b', forEachM (categorizeFile cfg) ys s' = Ok b'.
Proof.
  revert s s'. induction ys as [|y ys IH]; intros s s' H; [now eexists|].
  simpl in *. unfold categorizeFile in H at 1 |- * at 1.
  destruct (isExcluded cfg y) as [[|]|]; simpl in *;
    [eapply IH; eauto | eapply IH; eauto | discriminate].
Qed.

(** X8. Categorizing a list in two parts: the buckets of the whole list
    are those of the first part followed by those of the second, and an
    error thrown on the first part is the error of the whole. *)
Theorem categorize_in_parts (cfg : Config) (xs ys : list string) :
  (forall a b,
      categorizeFiles cfg xs = Ok a -> categorizeFiles cfg ys = Ok b ->
      exists c, categorizeFiles cfg (xs ++ ys) = Ok c /\
                forall k, bucket k c = bucket k a ++ bucket k b) /\
  (forall e, categorizeFiles cfg xs = Err e ->
             categorizeFiles cfg (xs ++ ys) = Err e).
Proof.
  unfold categorizeFiles. rewrite forEachM_app. split.
  - intros a b Ha Hb. rewrite Ha. simpl.
    destruct (forEach_categorize _ _ _ _ Hb) as (kept & Hk & Hkb).
    destruct (forEachM (categorizeFile cfg) ys a) as [c|e] eqn:Ec.
    + exists c. split; [reflexivity|]. intros k.
      destruct (forEach_categorize _ _ _ _ Ec) as (kept' & Hk' & Hc).
      rewrite Hk in Hk'. injection Hk' as <-.
      rewrite Hc, Hkb, bucket_empty. reflexivity.
    + destruct (forEach_categorize_any_state cfg ys _ a _ Hb) as (b' & Hb').
      congruence.
  - intros e He. now rewrite He.
Qed.

Lemma categorize_in_parts_witness :
  exists c,
    categorizeFiles defaultConfig (["a.css"; "b.md"] ++ ["c.css"]) = Ok c /\
    styles c = ["a.css"; "c.css"].
Proof.
  destruct (proj1 (categorize_in_parts defaultConfig
                     ["a.css"; "b.md"] ["c.css"]) _ _ eq_refl eq_refl)
    as (c & Hc & Hb).
  exists c. split; [exact Hc|]. exact (Hb Styles).
Defined.

Lemma isExcluded_throws (cfg : Config) (file : string) :
  throwingPatterns (excludePatterns cfg) = true ->
  exists e, isExcluded cfg file = Err e.
Proof.
  unfold throwingPatterns, isExcluded.
  destruct (excludePatterns cfg) as [| | | |[|p ps]| |]; intros H;
    try discriminate; try (eexists; reflexivity).
  simpl. destruct p; try discriminate; eexists; reflexivity.
Qed.

(** X9. Exclusion patterns whose first element is not a RegExp object,
    or that are not an array, make the categorizer and the file filter
    of [main] throw on every non-empty file list; an empty file list
    never throws. *)
Theorem patterns_throw_on_first_file (cfg : Config) :
  throwingPatterns (excludePatterns cfg) = true ->
  (forall file files,
      exists e, categorizeFiles cfg (file :: files) = Err e
                /\ keptFiles cfg (file :: files) = Err e) /\
  categorizeFiles cfg [] = Ok emptyCategories /\
  keptFiles cfg [] = Ok [].
Proof.
  intros H. split; [|split; reflexivity].
  intros file files. destruct (isExcluded_throws cfg file H) as (e & He).
  exists e. unfold categorizeFiles, keptFiles. simpl.
  unfold categorizeFile at 1. rewrite He. split; reflexivity.
Qed.

Lemma patterns_throw_on_first_file_witness :
  exists e,
    categorizeFiles
      (mergeConfig (JObject [("excludePatterns", JArray [JString "^dist/"])]))
      ["src/index.js"; "dist/bundle.js"] = Err e.
Proof.
  destruct (proj1 (patterns_throw_on_first_file
                     (mergeConfig
                        (JObject [("excludePatterns",
                                   JArray [JString "^dist/"])]))
                     eq_refl) "src/index.js" ["dist/bundle.js"])
    as (e & He & _).
  exists e. exact He.
Defined.

End CategorizerMore.

Section OrderInBuckets.

Variable cfg : Config.
Variable res : list regex.
Hypothesis patterns_are_regex : regexPatterns cfg res.

(** X10. With RegExp patterns, each bucket holds the non-excluded files
    of its category in the order of the input, a repeated path as often
    as it occurs. *)
Theorem buckets_in_input_order (files : list string) :
  exists cats,
    categorizeFiles cfg files = Ok cats /\
    forall c,
      bucket c cats
      = filter (fun f => negb (matchesAny res f)
                         && category_eqb (categoryOf f) c) files.
Proof.
  destruct (forEach_categorize_regex cfg res patterns_are_regex files
                                     emptyCategories) as (cats & Hc).
  exists cats. split; [exact Hc|]. intros c.
  destruct (categorizeFiles_buckets _ _ _ Hc) as (kept & Hk & Hb).
  rewrite (keptFiles_regex cfg res patterns_are_regex) in Hk.
  injection Hk as <-. rewrite Hb. clear Hb Hc.
  induction files as [|x files IH]; simpl; [reflexivity|].
  destruct (matchesAny res x); simpl; [exact IH|].
  destruct (category_eqb (categoryOf x) c); now rewrite IH.
Qed.

End OrderInBuckets.

Lemma buckets_in_input_order_witness :
  exists cats,
    categorizeFiles defaultConfig ["b.css"; "dist/x.css"; "a.css"; "b.css"]
    = Ok cats /\
    styles cats = ["b.css"; "a.css"; "b.css"].
Proof.
  destruct (buckets_in_input_order defaultConfig defaultExcludePatterns
              eq_refl ["b.css"; "dist/x.css"; "a.css"; "b.css"])
    as (cats & Hc & Hb).
  exists cats. split; [exact Hc|]. exact (Hb Styles).
Defined.

(** ** Configuration files and command line *)

Section ConfigMore.

Lemma isExcluded_patterns (cfg cfg' : Config) (file : string) :
  excludePatterns cfg = excludePatterns cfg' ->
  isExcluded cfg file = isExcluded cfg' file.
Proof. unfold isExcluded. now intros ->. Qed.

Lemma categorizeFiles_patterns (cfg cfg' : Config) (files : list string) :
  excludePatterns cfg = excludePatterns cfg' ->
  categorizeFiles cfg files = categorizeFiles cfg' files.
Proof.
  intros E. unfold categorizeFiles. generalize emptyCategories.
  induction files as [|x files IH]; intros s; simpl; [reflexivity|].
  unfold categorizeFile at 1 3. rewrite (isExcluded_patterns _ _ x E).
  destruct (isExcluded cfg' x) as [[|]|]; simpl; auto.
Qed.

Lemma loadConfig_skips (skipped rest : list (option value)) :
  Forall (fun outcome => outcome = None) skipped ->
  loadConfig (skipped ++ rest) = loadConfig rest.
Proof.
  induction 1 as [|x skipped -> _ IH]; [reflexivity | exact IH].
Qed.

Lemma unusable_outcomes (fs : string -> option (option value))
      (files : list string) :
  (forall file, In file files -> fs file = None \/ fs file = Some None) ->
  Forall (fun outcome => outcome = None)
         (flat_map (fun file => match fs file with
                                | Some outcome => [outcome]
                                | None => []
                                end) files).
Proof.
  induction files as [|f files IH]; intros H; [constructor|].
  cbn [flat_map]. apply Forall_app. split.
  - destruct (H f (or_introl eq_refl)) as [-> | ->]; repeat constructor.
  - apply IH. intros file Hf. apply H. now right.
Qed.

(** X11. [loadConfig] tries the [--config] path, [.prsummaryrc.json],
    [.prsummaryrc] and [prsummary.config.json], in this order, and
    takes the first candidate that exists and parses: a candidate that
    is missing or does not parse is passed over without an error, and
    when no candidate is usable the defaults are returned. *)
Theorem config_file_priority (fs : string -> option (option value))
        (p : string) :
  Js.truthy p = true ->
  configFiles (Some p)
  = [p; ".prsummaryrc.json"; ".prsummaryrc"; "prsummary.config.json"] /\
  configFiles None
  = [".prsummaryrc.json"; ".prsummaryrc"; "prsummary.config.json"] /\
  (forall configPath skipped file later u,
      configFiles configPath = skipped ++ file :: later ->
      (forall f, In f skipped -> fs f = None \/ fs f = Some None) ->
      fs file = Some (Some u) ->
      loadConfigFrom fs configPath = mergeConfig u) /\
  (forall configPath,
      (forall f, In f (configFiles configPath) ->
                 fs f = None \/ fs f = Some None) ->
      loadConfigFrom fs configPath = defaultConfig) /\
  (forall u, fs p = Some (Some u) ->
             loadConfigFrom fs (Some p) = mergeConfig u) /\
  (fs p = None \/ fs p = Some None ->
   loadConfigFrom fs (Some p) = loadConfigFrom fs None) /\
  (forall u, fs ".prsummaryrc.json" = Some (Some u) ->
             loadConfigFrom fs None = mergeConfig u) /\
  (forall u,
      fs ".prsummaryrc.json" = None \/ fs ".prsummaryrc.json" = Some None ->
      fs ".prsummaryrc" = Some (Some u) ->
      loadConfigFrom fs None = mergeConfig u) /\
  (forall u,
      fs ".prsummaryrc.json" = None \/ fs ".prsummaryrc.json" = Some None ->
      fs ".prsummaryrc" = None \/ fs ".prsummaryrc" = Some None ->
      fs "prsummary.config.json" = Some (Some u) ->
      loadConfigFrom fs None = mergeConfig u).
Proof.
  intros Hp.
  assert (forall configPath skipped file later u,
             configFiles configPath = skipped ++ file :: later ->
             (forall f, In f skipped -> fs f = None \/ fs f = Some None) ->
             fs file = Some (Some u) ->
             loadConfigFrom fs configPath = mergeConfig u) as General.
  { intros configPath skipped file later u E Hs Hf.
    unfold loadConfigFrom. rewrite E, flat_map_app.
    rewrite (loadConfig_skips _ _ (unusable_outcomes fs skipped Hs)).
    cbn [flat_map]. rewrite Hf. reflexivity. }
  assert (configFiles (Some p)
          = [p; ".prsummaryrc.json"; ".prsummaryrc";
             "prsummary.config.json"]) as Ep
      by (unfold configFiles; now rewrite Hp).
  split; [exact Ep|]. split; [reflexivity|]. split; [exact General|].
  split; [|split; [|split; [|split; [|split]]]].
  - intros configPath H. unfold loadConfigFrom.
    rewrite <- (app_nil_r (flat_map _ _)).
    now rewrite (loadConfig_skips _ _ (unusable_outcomes fs _ H)).
  - intros u Hu. apply (General (Some p) [] p _ u Ep); [intros f []|exact Hu].
  - intros H. unfold loadConfigFrom. rewrite Ep.
    change (configFiles None)
      with [".prsummaryrc.json"; ".prsummaryrc"; "prsummary.config.json"].
    cbn [flat_map]. destruct H as [-> | ->]; reflexivity.
  - intros u Hu.
    apply (General None [] ".prsummaryrc.json" _ u eq_refl);
      [intros f [] | exact Hu].
  - intros u H1 Hu.
    apply (General None [".prsummaryrc.json"] ".prsummaryrc" _ u eq_refl);
      [|exact Hu].
    intros f [<-|[]]. exact H1.
  - intros u H1 H2 Hu.
    apply (General None [".prsummaryrc.json"; ".prsummaryrc"]
                   "prsummary.config.json" [] u eq_refl); [|exact Hu].
    intros f [<-|[<-|[]]]; assumption.
Qed.

Lemma config_file_priority_witness :
  loadConfigFrom
    (fun file => if String.eqb file "prsummary.config.json"
                 then Some (Some (JObject [("baseBranch", JString "develop")]))
                 else if String.eqb file ".prsummaryrc" then Some None
                 else None)
    (Some "missing.json")
  = mergeConfig (JObject [("baseBranch", JString "develop")]).
Proof.
  set (fs := fun file =>
               if String.eqb file "prsummary.config.json"
               then Some (Some (JObject [("baseBranch", JString "develop")]))
               else if String.eqb file ".prsummaryrc" then Some None
               else None).
  destruct (config_file_priority fs "missing.json" eq_refl)
    as (_ & _ & _ & _ & _ & Hmiss & _ & _ & Hlast).
  rewrite Hmiss by (left; reflexivity).
  apply Hlast; [left; reflexivity | right; reflexivity | reflexivity].
Defined.

(** X12. A user configuration that does not set [excludePatterns]
    (another key only, or a JSON value that is no object) leaves the
    default patterns in place: files are categorized as under the
    defaults, and inside a repository [main] gets as far as writing the
    output file: it returns a summary when the write succeeds and
    throws what the write throws, a [TypeError] when the output file
    is neither a string nor a number. *)
Theorem config_without_patterns (user : value) :
  (forall fields, user = JObject fields ->
                  lookup "excludePatterns" fields = None) ->
  excludePatterns (mergeConfig user) = excludePatterns defaultConfig /\
  (forall files,
      categorizeFiles (mergeConfig user) files
      = categorizeFiles defaultConfig files) /\
  (forall w subjects names numstat,
      inRepo w = true ->
      let file := cliOutputFile (mergeConfig user) (args w) in
      (writeFileSync w file = Ok tt ->
       exists s, main w (mergeConfig user) subjects names numstat = Ok s) /\
      (forall e, writeFileSync w file = Err e ->
                 main w (mergeConfig user) subjects names numstat = Err e) /\
      ((forall path, file <> JString path) ->
       (forall fd, file <> JNumber fd) ->
       main w (mergeConfig user) subjects names numstat
       = Err (TypeError "ERR_INVALID_ARG_TYPE"))).
Proof.
  intros H.
  assert (excludePatterns (mergeConfig user)
          = excludePatterns defaultConfig) as E.
  { unfold mergeConfig, override. cbn [excludePatterns].
    destruct user; try reflexivity. now rewrite (H _ eq_refl). }
  split; [exact E|]. split.
  - intros files. now apply categorizeFiles_patterns.
  - intros w subjects names numstat Hw file.
    destruct (main_total_on_regex _ defaultExcludePatterns E
                                  w subjects names numstat Hw) as [H1 H2].
    split; [exact H1|]. split; [exact H2|].
    intros Hp Hd. apply H2. fold file.
    destruct file; try reflexivity;
      [now destruct (Hd z) | now destruct (Hp s)].
Qed.

Lemma config_without_patterns_witness :
  (exists s,
      main (quietWorld [])
           (mergeConfig (JObject [("outputFile", JString "PR.md")]))
           "docs: readme" "README.md" "" = Ok s) /\
  main (quietWorld []) (mergeConfig (JObject [("outputFile", JNull)]))
       "docs: readme" "README.md" ""
  = Err (TypeError "ERR_INVALID_ARG_TYPE").
Proof.
  split.
  - destruct (config_without_patterns
                (JObject [("outputFile", JString "PR.md")])) as (_ & _ & H).
    + intros fields [= <-]. reflexivity.
    + destruct (H (quietWorld []) "docs: readme" "README.md" ""
                  eq_refl) as (H1 & _).
      apply H1. reflexivity.
  - destruct (config_without_patterns
                (JObject [("outputFile", JNull)])) as (_ & _ & H).
    + intros fields [= <-]. reflexivity.
    + destruct (H (quietWorld []) "docs: readme" "README.md" ""
                  eq_refl) as (_ & _ & H3).
      apply H3; intros x; discriminate.
Defined.

Lemma mem_In (x : string) (xs : list string) :
  mem x xs = true <-> In x xs.
Proof.
  unfold mem. rewrite existsb_exists. split.
  - intros (y & Hy & E). apply String.eqb_eq in E. now subst.
  - intros H. exists x. split; [exact H | apply String.eqb_refl].
Qed.

Lemma indexOf_app_new (x : string) (pre xs : list string) :
  ~ In x pre ->
  indexOf x (pre ++ xs)
  = option_map (fun i => List.length pre + i) (indexOf x xs).
Proof.
  induction pre as [|y pre IH]; intros H; simpl.
  - now destruct (indexOf x xs).
  - destruct (String.eqb_spec y x) as [->|_]; [exfalso; apply H; now left|].
    rewrite IH by (intros Hi; apply H; now right).
    now destruct (indexOf x xs).
Qed.





End ConfigMore.

(** ** The file list of [main] *)

Section MainMore.

Lemma indexOf_app_old (x : string) (pre xs : list string) :
  In x pre ->
  exists j, indexOf x (pre ++ xs) = Some j /\ j < List.length pre.
Proof.
  induction pre as [|y pre IH]; intros H; [destruct H|]. simpl.
  destruct (String.eqb_spec y x) as [->|Hn].
  - exists 0. split; [reflexivity | lia].
  - destruct H as [H|H]; [congruence|].
    destruct (IH H) as (j & -> & Hj). exists (S j). split; [reflexivity|lia].
Qed.

Lemma filterIndexed_firstOccurrences (xs pre : list string) :
  filterIndexed
    (fun file index =>
       match indexOf file (pre ++ xs) with
       | Some i => (i =? index)%nat
       | None => false
       end) (List.length pre) xs
  = firstOccurrences pre xs.
Proof.
  revert pre. induction xs as [|x xs IH]; intros pre; [reflexivity|].
  cbn [filterIndexed firstOccurrences].
  specialize (IH (pre ++ [x])).
  rewrite <- app_assoc, length_app, Nat.add_1_r in IH.
  cbn [app] in IH. rewrite IH.
  destruct (mem x pre) eqn:Em.
  - apply mem_In in Em.
    destruct (indexOf_app_old x pre (x :: xs) Em) as (j & -> & Hj).
    destruct (Nat.eqb_spec j (List.length pre)); [lia | reflexivity].
  - assert (~ In x pre) as Hn
        by (intros Hi; apply mem_In in Hi; congruence).
    rewrite (indexOf_app_new _ _ _ Hn). simpl indexOf.
    rewrite String.eqb_refl. cbn [option_map].
    now rewrite Nat.add_0_r, Nat.eqb_refl.
Qed.

Lemma firstOccurrences_In (xs seen : list string) (x : string) :
  In x (firstOccurrences seen xs) <-> In x xs /\ ~ In x seen.
Proof.
  revert seen. induction xs as [|y xs IH]; intros seen; simpl; [tauto|].
  destruct (mem y seen) eqn:Em.
  - apply mem_In in Em. rewrite IH, in_app_iff. simpl. split.
    + intros [H1 H2]. split; [now right | tauto].
    + intros [[->|H1] H2]; [tauto|]. split; [exact H1|].
      intros [H|[->|[]]]; tauto.
  - assert (~ In y seen) as Hn
        by (intros Hi; apply mem_In in Hi; congruence).
    simpl. rewrite IH, in_app_iff. simpl. split.
    + intros [->|[H1 H2]]; [tauto|]. split; [now right | tauto].
    + intros [[->|H1] H2]; [now left|].
      destruct (string_dec y x) as [->|Hd]; [now left|].
      right. split; [exact H1|]. intros [H|[E|[]]]; [tauto | congruence].
Qed.

Lemma firstOccurrences_NoDup (xs seen : list string) :
  NoDup (firstOccurrences seen xs).
Proof.
  revert seen. induction xs as [|y xs IH]; intros seen; simpl;
    [constructor|].
  destruct (mem y seen); [apply IH|].
  constructor; [|apply IH].
  rewrite firstOccurrences_In, in_app_iff. simpl. tauto.
Qed.

Lemma firstOccurrences_fixed (xs seen : list string) :
  NoDup xs -> (forall x, In x xs -> ~ In x seen) ->
  firstOccurrences seen xs = xs.
Proof.
  revert seen. induction xs as [|y xs IH]; intros seen Hd Hs;
    [reflexivity|].
  simpl. inversion Hd as [|? ? Hy Hd']; subst.
  destruct (mem y seen) eqn:Em.
  - apply mem_In in Em. exfalso. apply (Hs y); [now left | exact Em].
  - f_equal. apply IH; [exact Hd'|].
    intros x Hx. rewrite in_app_iff. simpl.
    intros [H|[->|[]]]; [apply (Hs x); [now right | exact H] | tauto].
Qed.

Lemma removeDuplicates_eq (self : list string) :
  removeDuplicates self = firstOccurrences [] self.
Proof. exact (filterIndexed_firstOccurrences self []). Qed.

Lemma removeDuplicates_NoDup (self : list string) :
  NoDup (removeDuplicates self).
Proof. rewrite removeDuplicates_eq. apply firstOccurrences_NoDup. Qed.

Lemma removeDuplicates_In (self : list string) (x : string) :
  In x (removeDuplicates self) <-> In x self.
Proof.
  rewrite removeDuplicates_eq, firstOccurrences_In. simpl. tauto.
Qed.

(** X14. The duplicate filter of [main] keeps the first occurrence of
    every path, in order: its result has no repetition and the same
    members, and a list without repetition is returned unchanged. *)
Theorem removeDuplicates_first_occurrences (self : list string) :
  removeDuplicates self = firstOccurrences [] self /\
  NoDup (removeDuplicates self) /\
  (forall x, In x (removeDuplicates self) <-> In x self) /\
  (NoDup self -> removeDuplicates self = self) /\
  removeDuplicates (removeDuplicates self) = removeDuplicates self.
Proof.
  split; [apply removeDuplicates_eq|].
  split; [apply removeDuplicates_NoDup|].
  split; [apply removeDuplicates_In|].
  rewrite !removeDuplicates_eq. split.
  - intros H. now apply firstOccurrences_fixed.
  - apply firstOccurrences_fixed; [apply firstOccurrences_NoDup | auto].
Qed.

Lemma removeDuplicates_first_occurrences_witness :
  removeDuplicates ["a.js"; "b.js"; "c.js"] = ["a.js"; "b.js"; "c.js"].
Proof.
  destruct (removeDuplicates_first_occurrences ["a.js"; "b.js"; "c.js"])
    as (_ & _ & _ & H & _).
  apply H. repeat constructor; simpl; intuition discriminate.
Defined.

Lemma split_pieces (c : ascii) (s x : string) :
  In x (Js.split c s) -> hasChar c x = false.
Proof.
  revert x. induction s as [|y s IH]; intros x H.
  - destruct H as [<-|[]]. reflexivity.
  - simpl in H. destruct (Ascii.eqb y c) eqn:Ey.
    + destruct H as [<-|H]; [reflexivity | now apply IH].
    + destruct (Js.split c s) as [|piece pieces] eqn:Es.
      * destruct H as [<-|[]]. simpl. now rewrite Ey.
      * destruct H as [<-|H].
        -- simpl. rewrite Ey. apply IH. now left.
        -- apply IH. now right.
Qed.

Lemma keptFiles_NoDup (cfg : Config) (files kept : list string) :
  keptFiles cfg files = Ok kept -> NoDup files -> NoDup kept.
Proof.
  unfold keptFiles. revert kept.
  induction files as [|x files IH]; simpl; intros kept H Hd.
  - injection H as <-. constructor.
  - destruct (isExcluded cfg x) as [skip|e]; simpl in H; [|discriminate].
    destruct (filterM _ files) as [kept'|e] eqn:Ek; simpl in H;
      [|discriminate].
    injection H as <-. inversion Hd as [|? ? Hx Hd']; subst.
    destruct skip; simpl; [now apply IH|].
    constructor; [|now apply IH].
    intros Hin. apply (keptFiles_spec cfg files kept' Ek) in Hin. tauto.
Qed.

Lemma keptFiles_again (cfg : Config) (files kept : list string) :
  keptFiles cfg files = Ok kept -> keptFiles cfg kept = Ok kept.
Proof.
  unfold keptFiles. revert kept.
  induction files as [|x files IH]; simpl; intros kept H.
  - now injection H as <-.
  - destruct (isExcluded cfg x) as [skip|e] eqn:Ex; simpl in H;
      [|discriminate].
    destruct (filterM _ files) as [kept'|e]; simpl in H; [|discriminate].
    injection H as <-. specialize (IH _ eq_refl).
    destruct skip; [exact IH|]. simpl. rewrite Ex. simpl.
    now rewrite IH.
Qed.

(** X15. The files [main] passes on are distinct non-empty lines of the
    name listing, none of them excluded, and the ten buckets taken
    together hold exactly these files: the second exclusion test, in
    the categorizer, drops nothing. *)
Theorem main_files (w : World) (cfg : Config)
        (subjects names numstat : string) (s : Summary) :
  main w cfg subjects names numstat = Ok s ->
  NoDup (sumFiles s) /\
  (forall f, In f (sumFiles s) ->
             In f (Js.split Js.newline names) /\ Js.truthy f = true
             /\ hasChar Js.newline f = false
             /\ isExcluded cfg f = Ok false) /\
  Permutation
    (flat_map (fun c => bucket c (sumCategories s)) allCategories)
    (sumFiles s).
Proof.
  intros H.
  destruct (main_fields _ _ _ _ _ _ H) as (Hk & Hc & _).
  set (lines := filter Js.truthy (Js.split Js.newline names)) in *.
  split; [|split].
  - apply (keptFiles_NoDup _ _ _ Hk). apply removeDuplicates_NoDup.
  - intros f Hf. apply (keptFiles_spec _ _ _ Hk) in Hf as [Hf Hex].
    apply (proj1 (removeDuplicates_In _ _)) in Hf.
    apply filter_In in Hf as [Hf Ht].
    repeat split; auto. now apply (split_pieces _ names).
  - destruct (categorizeFiles_buckets _ _ _ Hc) as (kept & Hk' & Hb).
    rewrite (keptFiles_again _ _ _ Hk) in Hk'. injection Hk' as <-.
    erewrite flat_map_ext; [apply partition_by_category|].
    intros c. apply Hb.
Qed.

Lemma main_files_witness :
  exists s,
    main (quietWorld []) defaultConfig "feat: x"
         (Js.join nl ["a.js"; "dist/a.js"; "a.js"]) "" = Ok s /\
    NoDup (sumFiles s).
Proof.
  destruct (main (quietWorld []) defaultConfig "feat: x"
                 (Js.join nl ["a.js"; "dist/a.js"; "a.js"]) "")
    as [s|e] eqn:E; [|vm_compute in E; discriminate E].
  exists s. split; [reflexivity|].
  exact (proj1 (main_files _ _ _ _ _ _ E)).
Defined.

Lemma removeDuplicates_nil_inv (xs : list string) :
  removeDuplicates xs = [] -> xs = [].
Proof.
  intros H. destruct xs as [|x xs]; [reflexivity|].
  assert (In x (removeDuplicates (x :: xs))) as Hin
      by (apply removeDuplicates_In; now left).
  rewrite H in Hin. destruct Hin.
Qed.

(** X16. When the name listing has no non-empty line, no exclusion
    pattern is tested: inside a repository [main] gets as far as
    writing the output file under every configuration, also one whose
    patterns would throw.  It throws what the write throws; when the
    write succeeds it returns no file, empty buckets, both
    placeholders, an empty prompt listing, and the no-tests warning as
    only suggestion unless the commits make the type Docs.  With a
    non-empty line and throwing patterns, [main] does not return.
    Outside a repository it ends the process with code 1. *)
Theorem main_without_files (w : World) (cfg : Config)
        (subjects names numstat : string) :
  (filter Js.truthy (Js.split Js.newline names) = [] ->
   inRepo w = true ->
   (writeFileSync w (cliOutputFile cfg (args w)) = Ok tt ->
    exists s,
      main w cfg subjects names numstat = Ok s /\
      sumFiles s = [] /\ sumCategories s = emptyCategories /\
      sumChanges s = "<!-- TODO: Describe your changes -->" /\
      sumFileList s = "- No files modified" /\
      sumPromptFiles s = "" /\
      (type (sumType s) <> DocsType -> sumSuggestions s = [msgNoTests]) /\
      (type (sumType s) = DocsType -> sumSuggestions s = [])) /\
   (forall e, writeFileSync w (cliOutputFile cfg (args w)) = Err e ->
              main w cfg subjects names numstat = Err e)) /\
  (filter Js.truthy (Js.split Js.newline names) <> [] ->
   throwingPatterns (excludePatterns cfg) = true ->
   exists e, main w cfg subjects names numstat = Err e) /\
  (inRepo w = false -> main w cfg subjects names numstat = Err (Exit 1)).
Proof.
  split; [|split].
  - intros H Hw. unfold main, checkGitRepo. rewrite Hw, H.
    cbn [removeDuplicates filterIndexed].
    cbn [keptFiles filterM bind categorizeFiles forEachM].
    split.
    + intros ->. cbn [bind]. eexists. split; [reflexivity|].
      cbn [sumFiles sumCategories sumChanges sumFileList sumPromptFiles
           sumSuggestions sumType].
      repeat split.
      * intros Hd. unfold generateSuggestions. cbn.
        destruct (type _); try reflexivity. congruence.
      * intros Hd. unfold generateSuggestions. cbn. now rewrite Hd.
    + intros e ->. reflexivity.
  - intros H Ht. unfold main, checkGitRepo.
    destruct (inRepo w); cbn [bind]; [|now eexists].
    destruct (removeDuplicates _) as [|f fs] eqn:Er.
    + apply removeDuplicates_nil_inv in Er. congruence.
    + destruct (isExcluded_throws cfg f Ht) as (e & He).
      unfold keptFiles. simpl. rewrite He. now exists e.
  - intros Hw. unfold main, checkGitRepo. now rewrite Hw.
Qed.

Lemma main_without_files_witness :
  (exists s,
      main (quietWorld [])
           (mergeConfig (JObject [("excludePatterns", JString "dist")]))
           "chore: tag" (String Js.newline (String Js.newline "")) ""
      = Ok s /\ sumFileList s = "- No files modified") /\
  (exists e,
      main (quietWorld [])
           (mergeConfig (JObject [("excludePatterns", JString "dist")]))
           "chore: tag" "a.js" "" = Err e).
Proof.
  split.
  - destruct (proj1 (main_without_files
                       (quietWorld [])
                       (mergeConfig
                          (JObject [("excludePatterns", JString "dist")]))
                       "chore: tag"
                       (String Js.newline (String Js.newline "")) "")
                    eq_refl eq_refl) as (H & _).
    destruct (H eq_refl) as (s & Hs & _ & _ & _ & Hl & _).
    exists s. split; [exact Hs | exact Hl].
  - apply (proj1 (proj2 (main_without_files
                       (quietWorld [])
                       (mergeConfig
                          (JObject [("excludePatterns", JString "dist")]))
                       "chore: tag" "a.js" ""))).
    + discriminate.
    + reflexivity.
Defined.

(** X17. The prompt lists the files of [main] one per line, each after
    two spaces and a dash: splitting the listing at the line breaks
    gives the files back. *)
Theorem prompt_lists_each_file (w : World) (cfg : Config)
        (subjects names numstat : string) (s : Summary) :
  main w cfg subjects names numstat = Ok s ->
  sumFiles s <> [] ->
  Js.split Js.newline (sumPromptFiles s)
  = map (fun f => ("  - " ++ f)%string) (sumFiles s).
Proof.
  intros H Hne.
  destruct (main_fields _ _ _ _ _ _ H) as (Hk & _ & _ & _ & Hp & _).
  rewrite Hp. unfold promptFileList.
  assert (forall f, In f (sumFiles s) -> hasChar Js.newline f = false)
    as Hnl.
  { intros f Hf. apply (keptFiles_spec _ _ _ Hk) in Hf as [Hf _].
    apply (proj1 (removeDuplicates_In _ _)) in Hf.
    apply filter_In in Hf as [Hf _]. now apply (split_pieces _ names). }
  destruct (sumFiles s) as [|f fs]; [congruence|].
  cbn [map]. apply split_join_lines.
  change (("  - " ++ f)%string :: map (fun f0 => ("  - " ++ f0)%string) fs)
    with (map (fun f0 => ("  - " ++ f0)%string) (f :: fs)).
  apply forallb_forall. intros x Hx.
  apply in_map_iff in Hx as (y & <- & Hy).
  apply negb_true_iff. simpl. now apply Hnl.
Qed.

Lemma prompt_lists_each_file_witness :
  exists s,
    main (quietWorld []) defaultConfig "feat: x"
         (Js.join nl ["a.js"; "b.js"]) "" = Ok s /\
    Js.split Js.newline (sumPromptFiles s) = ["  - a.js"; "  - b.js"].
Proof.
  destruct (main (quietWorld []) defaultConfig "feat: x"
                 (Js.join nl ["a.js"; "b.js"]) "")
    as [s|e] eqn:E; [|vm_compute in E; discriminate E].
  exists s. split; [reflexivity|].
  rewrite (prompt_lists_each_file _ _ _ _ _ _ E).
  - vm_compute in E. injection E as <-. reflexivity.
  - vm_compute in E. injection E as <-. discriminate.
Defined.

End MainMore.

(** ** Suggestions and placeholders *)

Section SuggestionsMore.

Lemma generateSuggestions_fired (categories : FileCategories)
      (prType : PRType) :
  generateSuggestions categories prType
  = firedMessages (suggestionRules categories (type prType)).
Proof.
  unfold generateSuggestions, suggestionRules, firedMessages.
  rewrite !nonEmpty_isNil, length_zero_isNil, not_docs.
  cbn [flat_map fst snd].
  destruct (isNil (components categories)),
           (isNil (hooks categories)),
           (isNil (utils categories)),
           (isNil (tests categories)),
           (isNil (types categories)),
           (isNil (styles categories));
    destruct (type prType); reflexivity.
Qed.

Lemma isNil_nil {A : Type} (xs : list A) : isNil xs = true <-> xs = [].
Proof. destruct xs; simpl; split; congruence. Qed.

(** X18. The no-tests warning is among the suggestions exactly when no
    file landed in [tests] and the type is not Docs.  There is no
    suggestion at all exactly when components, hooks, utils, types and
    styles are empty and the warning does not apply.  At most nine
    suggestions are made. *)
Theorem suggestions_summary (categories : FileCategories)
        (prType : PRType) :
  let suggestions := generateSuggestions categories prType in
  (In msgNoTests suggestions
   <-> tests categories = [] /\ type prType <> DocsType) /\
  (suggestions = []
   <-> components categories = [] /\ hooks categories = []
       /\ utils categories = [] /\ types categories = []
       /\ styles categories = []
       /\ ~ (tests categories = [] /\ type prType <> DocsType)) /\
  List.length suggestions <= 9.
Proof.
  cbv zeta. rewrite generateSuggestions_fired.
  unfold suggestionRules, firedMessages. cbn [flat_map fst snd].
  rewrite <- !isNil_nil.
  assert (type prType <> DocsType
          <-> match type prType with DocsType => false | _ => true end
              = true) as ->
      by (destruct (type prType); split; congruence).
  destruct (isNil (components categories)),
           (isNil (hooks categories)),
           (isNil (utils categories)),
           (isNil (tests categories)),
           (isNil (types categories)),
           (isNil (styles categories)),
           (match type prType with DocsType => false | _ => true end);
    cbn [negb andb app List.length In];
    (split; [|split]; [| |lia]);
    intuition (try discriminate; try congruence).
Qed.

End SuggestionsMore.

Section Placeholders.

Lemma blocks_empty (limit : nat) (closing : bool)
      (es : list (string * list string)) :
  flat_map (blockPieces limit closing) es = []
  <-> forallb (fun e : string * list string => isNil (snd e)) es = true.
Proof.
  induction es as [|[key files] es IH]; [simpl; tauto|].
  cbn [flat_map forallb snd]. destruct files as [|f files].
  - cbn [blockPieces isNil app]. rewrite IH. simpl. tauto.
  - cbn [blockPieces isNil andb]. split; discriminate.
Qed.

Lemma allEmpty_entries (cats : FileCategories) :
  forallb (fun e : string * list string => isNil (snd e)) (entries cats)
  = allEmpty cats.
Proof. reflexivity. Qed.

(** The rendering of some block starts with the heading of the first
    non-empty category. *)
Lemma blocks_start (text : Piece -> string) (limit : nat) (closing : bool)
      (es : list (string * list string)) :
  flat_map (blockPieces limit closing) es <> [] ->
  exists key count rest,
    renderPieces text (flat_map (blockPieces limit closing) es)
    = (text (Heading key count) ++ rest)%string.
Proof.
  induction es as [|[key files] es IH]; [intros H; now destruct H|].
  cbn [flat_map]. destruct files as [|f files].
  - cbn [blockPieces app]. exact IH.
  - intros _. cbn [blockPieces]. rewrite <- app_comm_cons.
    rewrite renderPieces_cons. eauto.
Qed.

Lemma prefix_of_append (k r : string) : String.prefix k (k ++ r) = true.
Proof.
  induction k as [|c k IH]; simpl; [now destruct r|].
  destruct (ascii_dec c c); [exact IH | congruence].
Qed.

(** X19. Each renderer returns its placeholder exactly when all ten
    buckets are empty; otherwise the changes breakdown starts with a
    [#### ] heading and the file listing with a bold category name. *)
Theorem placeholders_when_empty (cats : FileCategories) :
  (generateChangesSection cats = "<!-- TODO: Describe your changes -->"
   <-> allEmpty cats = true) /\
  (generateFileList cats = "- No files modified"
   <-> allEmpty cats = true) /\
  (allEmpty cats = false ->
   String.prefix "#### " (generateChangesSection cats) = true /\
   String.prefix "**" (generateFileList cats) = true).
Proof.
  rewrite generateChangesSection_pieces, generateFileList_pieces.
  cbv zeta. rewrite <- allEmpty_entries.
  destruct (forallb _ (entries cats)) eqn:E.
  - pose proof (proj2 (blocks_empty 5 false _) E) as ->.
    pose proof (proj2 (blocks_empty 10 true _) E) as ->.
    cbn. repeat split; discriminate.
  - assert (flat_map (blockPieces 5 false) (entries cats) <> []) as H5
        by (intros H; apply blocks_empty in H; congruence).
    assert (flat_map (blockPieces 10 true) (entries cats) <> []) as H10
        by (intros H; apply blocks_empty in H; congruence).
    destruct (blocks_start changesText _ _ _ H5) as (k & n & r & ->).
    destruct (blocks_start fileListText _ _ _ H10) as (k' & n' & r' & ->).
    cbn [changesText fileListText append Js.truthy].
    repeat split; try discriminate;
      [apply (prefix_of_append "#### ") | apply (prefix_of_append "**")].
Qed.

Lemma placeholders_when_empty_witness :
  String.prefix "#### "
    (generateChangesSection (push Docs "README.md" emptyCategories)) = true
  /\
  String.prefix "**"
    (generateFileList (push Docs "README.md" emptyCategories)) = true.
Proof.
  destruct (placeholders_when_empty (push Docs "README.md" emptyCategories))
    as (_ & _ & H).
  exact (H eq_refl).
Defined.

End Placeholders.

(** ** The default exclusion patterns *)

Section DefaultExclusions.

Lemma prefix_iff (k s : string) :
  String.prefix k s = true <-> exists rest, s = (k ++ rest)%string.
Proof.
  split.
  - intros H. rewrite <- (append_nil_r k) in H.
    apply prefix_append_inv in H as (rest & -> & _). now exists rest.
  - intros (rest & ->). apply prefix_of_append.
Qed.

Lemma endsWith_iff (w s : string) :
  Js.endsWith w s = true <-> exists stem, s = (stem ++ w)%string.
Proof.
  split.
  - induction s as [|c s IH]; cbn [Js.endsWith]; intros H.
    + rewrite orb_false_r in H. apply String.eqb_eq in H. now exists "".
    + apply orb_true_iff in H as [H|H].
      * apply String.eqb_eq in H. now exists "".
      * destruct (IH H) as (stem & ->). now exists (String c stem).
  - intros (stem & ->). induction stem as [|c stem IH].
    + destruct w; cbn [append Js.endsWith]; now rewrite String.eqb_refl.
    + change (String c stem ++ w)%string with (String c (stem ++ w)).
      cbn [Js.endsWith]. rewrite IH. apply orb_true_r.
Qed.

(** X20. Under the default configuration a path is excluded exactly
    when it starts with [.windsurf/], [.cursor/], [.vscode/], [.idea/],
    [node_modules/], [.next/], [dist/], [build/] or [coverage/], or ends
    with [.log], or starts with [.env], or is [.gitignore],
    [package-lock.json] or [yarn.lock]; the test never throws. *)
Theorem default_exclusions (file : string) :
  exists excluded,
    isExcluded defaultConfig file = Ok excluded /\
    (excluded = true <->
     (exists dir rest,
         In dir [".windsurf/"; ".cursor/"; ".vscode/"; ".idea/";
                 "node_modules/"; ".next/"; "dist/"; "build/"; "coverage/"]
         /\ file = (dir ++ rest)%string)
     \/ (exists stem, file = (stem ++ ".log")%string)
     \/ (exists rest, file = (".env" ++ rest)%string)
     \/ In file [".gitignore"; "package-lock.json"; "yarn.lock"]).
Proof.
  eexists. split; [apply default_patterns|].
  rewrite !orb_true_iff, !existsb_exists, endsWith_iff, prefix_iff.
  split.
  - intros [[[(dir & Hd & Hp)|H]|H]|(name & Hn & He)].
    + left. apply prefix_iff in Hp as (rest & ->). now exists dir, rest.
    + now right; left.
    + now right; right; left.
    + right; right; right. apply String.eqb_eq in He. now subst.
  - intros [(dir & rest & Hd & ->)|[H|[H|H]]].
    + left; left; left. exists dir. split; [exact Hd|].
      apply prefix_of_append.
    + now left; left; right.
    + now left; right.
    + right. exists file. split; [exact H | apply String.eqb_refl].
Qed.

End DefaultExclusions.
